(** * The autoproxy filter of the proxy gateway: GFWList parsing, domain
      matching, PAC rendering and the background updater.

    A shallow embedding of [common/filters/autoproxy/autoproxy_pac.go].
    Go strings are byte sequences: they are modelled by [string], whose
    characters ([ascii]) are the 256 byte values.  Functions of the Go
    standard library are modelled next to the code that calls them, each
    under the name it has in Go. *)

From Stdlib Require Import ZArith Ascii.
From stdpp Require Import gmap strings list sorting.

Local Open Scope Z_scope.
Local Open Scope nat_scope.

(** ** Bytes and strings *)

Module Go.

Definition code (c : ascii) : nat := nat_of_ascii c.

Definition dquote : string := String "034" "".
Definition newline : string := String "010" "".
Definition tab : string := String "009" "".

(** [s[n:]] for [n <= len(s)].  Go panics when [n > len(s)]; the callers
    below only slice after a [HasPrefix] test, except where noted. *)
Fixpoint drop (n : nat) (s : string) : string :=
  match n, s with
  | S k, String _ s' => drop k s'
  | _, _ => s
  end.

(** [strings.HasPrefix] *)
Fixpoint HasPrefix (s pre : string) {struct pre} : bool :=
  match pre, s with
  | EmptyString, _ => true
  | String c pre', String d s' => Ascii.eqb d c && HasPrefix s' pre'
  | String _ _, EmptyString => false
  end.

(** [strings.HasSuffix]:
    [len(s) >= len(suffix) && s[len(s)-len(suffix):] == suffix]. *)
Definition HasSuffix (s suffix : string) : bool :=
  (String.length suffix <=? String.length s) &&
  String.eqb (drop (String.length s - String.length suffix) s) suffix.

(** [strings.Contains] *)
Fixpoint Contains (s sub : string) : bool :=
  HasPrefix s sub ||
  match s with
  | String _ s' => Contains s' sub
  | EmptyString => false
  end.

(** [strings.ContainsAny(s, chars)] for a one-byte [chars]. *)
Fixpoint ContainsByte (s : string) (c : ascii) : bool :=
  match s with
  | String c' s' => Ascii.eqb c' c || ContainsByte s' c
  | EmptyString => false
  end.

Definition consHead (c : ascii) (parts : list string) : list string :=
  match parts with
  | p :: ps => String c p :: ps
  | [] => [String c ""]
  end.

(** [strings.SplitN(s, sep, n)] for a non-empty [sep] and [n > 0]: the
    pieces between the non-overlapping occurrences of [sep], found from
    the left, the last piece being the unsplit remainder.  [skip] counts
    the bytes of the occurrence of [sep] still to be passed over. *)
Fixpoint SplitN_go (sep : string) (n skip : nat) (s : string) : list string :=
  match s with
  | EmptyString => [""]
  | String c s' =>
      match skip with
      | S k => SplitN_go sep n k s'
      | O =>
          match n with
          | O | S O => [s]
          | S n' =>
              if HasPrefix s sep
              then "" :: SplitN_go sep n' (String.length sep - 1) s'
              else consHead c (SplitN_go sep n 0 s')
          end
      end
  end.

Definition SplitN (s sep : string) (n : nat) : list string := SplitN_go sep n 0 s.

(** [strings.Split(s, sep)] is [SplitN] without a bound on the pieces; a
    string has fewer pieces than it has bytes plus two. *)
Definition Split (s sep : string) : list string :=
  SplitN_go sep (String.length s + 2) 0 s.

(** [parts[0]] and [parts[len(parts)-1]]; [Split] and [SplitN] never
    return an empty slice, so neither index is out of range. *)
Definition first (parts : list string) : string := hd "" parts.
Definition final (parts : list string) : string := List.last parts "".

(** [strings.Replace(s, old, new, 1)] for a non-empty [old]. *)
Fixpoint ReplaceFirst (s old new : string) : string :=
  match s with
  | EmptyString => ""
  | String c s' =>
      if HasPrefix s old then new +:+ drop (String.length old) s
      else String c (ReplaceFirst s' old new)
  end.

(** *** [strings.TrimSpace]

    White space is decided on UTF-8 encoded runes ([unicode.IsSpace]):
    the six ASCII bytes and the encodings of U+0085, U+00A0, U+1680,
    U+2000..U+200A, U+2028, U+2029, U+202F, U+205F and U+3000. *)
Definition isSpace1 (c : ascii) : bool :=
  let n := code c in (9 <=? n) && (n <=? 13) || (n =? 32).

Definition isSpace2 (c1 c2 : ascii) : bool :=
  (code c1 =? 194) && ((code c2 =? 133) || (code c2 =? 160)).

Definition isSpace3 (c1 c2 c3 : ascii) : bool :=
  let a := code c1 in let b := code c2 in let c := code c3 in
  (a =? 225) && (b =? 154) && (c =? 128) ||
  (a =? 226) && (b =? 128) &&
    ((128 <=? c) && (c <=? 138) || (c =? 168) || (c =? 169) || (c =? 175)) ||
  (a =? 226) && (b =? 129) && (c =? 159) ||
  (a =? 227) && (b =? 128) && (c =? 128).

Fixpoint TrimLeftSpace (s : string) : string :=
  match s with
  | EmptyString => ""
  | String c1 s1 =>
      if isSpace1 c1 then TrimLeftSpace s1
      else
        match s1 with
        | EmptyString => s
        | String c2 s2 =>
            if isSpace2 c1 c2 then TrimLeftSpace s2
            else
              match s2 with
              | EmptyString => s
              | String c3 s3 =>
                  if isSpace3 c1 c2 c3 then TrimLeftSpace s3 else s
              end
        end
  end.

(** The same on the reversed string: the encodings are read backwards. *)
Fixpoint TrimLeftSpaceRev (s : string) : string :=
  match s with
  | EmptyString => ""
  | String c1 s1 =>
      if isSpace1 c1 then TrimLeftSpaceRev s1
      else
        match s1 with
        | EmptyString => s
        | String c2 s2 =>
            if isSpace2 c2 c1 then TrimLeftSpaceRev s2
            else
              match s2 with
              | EmptyString => s
              | String c3 s3 =>
                  if isSpace3 c3 c2 c1 then TrimLeftSpaceRev s3 else s
              end
        end
  end.

Definition TrimSpace (s : string) : string :=
  String.rev (TrimLeftSpaceRev (String.rev (TrimLeftSpace s))).

End Go.

(** ** Errors, readers and the line scanner *)

Inductive error : Type :=
  | ErrNotExist (name : string)   (* satisfies [os.IsNotExist] *)
  | ErrTooLong                    (* [bufio.ErrTooLong] *)
  | ErrOther (msg : string).

Definition IsNotExist (err : option error) : bool :=
  match err with
  | Some (ErrNotExist _) => true
  | _ => false
  end.

(** An [io.Reader]: the bytes it delivers, then end of file or an error. *)
Record Reader : Type := mkReader { rdData : string; rdErr : option error }.

Definition NewReader (s : string) : Reader := mkReader s None.

(** [ioutil.ReadAll] returns what was read together with the error. *)
Definition ReadAll (r : Reader) : string * option error := (rdData r, rdErr r).

Module Scanner.

(** [bufio.MaxScanTokenSize]: a line is a token of the default scanner
    only if it is shorter than the buffer. *)
Definition MaxScanTokenSize : N := 64 * 1024.

(** The lines of [bufio.ScanLines], before the carriage return is
    dropped: a final line needs no newline, and a trailing newline starts
    no further line. *)
Fixpoint rawLines (s : string) : list string :=
  match s with
  | EmptyString => []
  | String c s' =>
      if Ascii.eqb c "010" then "" :: rawLines s'
      else Go.consHead c (rawLines s')
  end.

Definition dropCR (line : string) : string :=
  if Go.HasSuffix line (String "013" "")
  then String.substring 0 (String.length line - 1) line
  else line.

Definition tooLong (line : string) : bool :=
  (MaxScanTokenSize <=? N.of_nat (String.length line))%N.

(** The tokens [scanner.Text()] takes in turn, up to the first line that
    does not fit the buffer. *)
Fixpoint tokensOf (lines : list string) : list string :=
  match lines with
  | [] => []
  | l :: ls => if tooLong l then [] else dropCR l :: tokensOf ls
  end.

Definition Tokens (r : Reader) : list string := tokensOf (rawLines (rdData r)).

(** [scanner.Err()] once [Scan] has returned false. *)
Definition Err (r : Reader) : option error :=
  if existsb tooLong (rawLines (rdData r)) then Some ErrTooLong else rdErr r.

End Scanner.

(** ** The standard library functions left abstract

    [url.Parse], [net.SplitHostPort], [time.Parse], the base64 decoder and
    the Unicode tables are not unfolded: the development holds for every
    behaviour of them. *)
Class StdLib : Type := {
  (** [url.Parse(s)] followed by [u.Host]; [None] when parsing fails. *)
  urlParseHost : string -> option string;
  (** the port of [net.SplitHostPort]; [None] when it returns an error. *)
  splitHostPort_port : string -> option string;
  (** [time.Parse(storage.DateFormat, s)], in nanoseconds since the epoch. *)
  timeParse : string -> option Z;
  (** reading a whole stream through [base64.NewDecoder(base64.StdEncoding, _)]. *)
  base64Decode : string -> string * option error;
  (** for a string that starts with a byte above 127: the width of its
      first rune when [unicode.IsLetter] or [unicode.IsDigit] holds of it,
      and 0 otherwise. *)
  letterOrDigitWidth : string -> nat
}.

(** ** parseAutoProxy *)

Section Parser.
Context {L : StdLib}.

(** [^[a-zA-Z0-9\.\_\-]+$] *)
Definition isHostByte (c : ascii) : bool :=
  let n := Go.code c in
  (97 <=? n) && (n <=? 122) || (65 <=? n) && (n <=? 90) ||
  (48 <=? n) && (n <=? 57) || (n =? 46) || (n =? 95) || (n =? 45).

Fixpoint allHostBytes (s : string) : bool :=
  match s with
  | EmptyString => true
  | String c s' => isHostByte c && allHostBytes s'
  end.

Definition hostRegexpMatch (site : string) : bool :=
  negb (String.eqb site "") && allHostBytes site.

(** The inner [switch] of the [||] and [|http://] cases. *)
Definition stripWildcard (site : string) : string :=
  if Go.Contains site "*." then Go.final (Go.Split site "*.")
  else if Go.HasPrefix site "*" then Go.final (Go.SplitN site "." 2)
  else site.

Definition skipped (s : string) : bool :=
  String.eqb s "" || Go.HasPrefix s "[" || Go.HasPrefix s "!" ||
  Go.HasPrefix s "||!" || Go.HasPrefix s "@@".

(** The body of the scanning loop for the trimmed line [s]: the key it
    adds to [sites], if any. *)
Definition lineSite (s : string) : option string :=
  if skipped s then None
  else if Go.HasPrefix s "||" then
    Some (stripWildcard (Go.first (Go.Split (Go.drop 2 s) "/")))
  else if Go.HasPrefix s "|http://" then
    match urlParseHost (Go.drop 1 s) with
    | Some host => Some (stripWildcard host)
    | None => None
    end
  else if Go.HasPrefix s "." then
    let site := Go.first (Go.Split (Go.first (Go.Split (Go.drop 1 s) "/")) "*") in
    Some (if Go.HasSuffix site ".co" then site +:+ "m" else site)
  else if negb (Go.ContainsByte s "*") then
    let site := Go.first (Go.Split s "/") in
    if hostRegexpMatch site then Some site else None
  else None.

Definition addLine (sites : gset string) (text : string) : gset string :=
  match lineSite (Go.TrimSpace text) with
  | Some site => {[ site ]} ∪ sites
  | None => sites
  end.

(** [parseAutoProxy]: the keys of the map [sites] in some order ([nil] is
    the empty list), or the scanner's error.  Go ranges over a map in an
    unspecified order; [elements] fixes one. *)
Definition parseAutoProxy (r : Reader) : list string * option error :=
  let sites := foldl addLine ∅ (Scanner.Tokens r) in
  match Scanner.Err r with
  | Some err => ([], Some err)
  | None => (elements sites, None)
  end.

End Parser.

(** ** The regular expression of fixProxyPac *)

Module Regexp.

(** The width of the first rune, as [utf8.DecodeRuneInString] reports it:
    an invalid or truncated encoding has width 1. *)
Definition isCont (c : ascii) : bool :=
  (128 <=? Go.code c) && (Go.code c <=? 191).

Definition seqLen (c0 : ascii) : nat :=
  let n := Go.code c0 in
  if (194 <=? n) && (n <=? 223) then 2
  else if (224 <=? n) && (n <=? 239) then 3
  else if (240 <=? n) && (n <=? 244) then 4
  else 1.

(** The accept range of the second byte. *)
Definition secondOK (c0 c1 : ascii) : bool :=
  let n := Go.code c0 in
  let lo := if n =? 224 then 160 else if n =? 240 then 144 else 128 in
  let hi := if n =? 237 then 159 else if n =? 244 then 143 else 191 in
  (lo <=? Go.code c1) && (Go.code c1 <=? hi).

Definition runeWidth (s : string) : nat :=
  match s with
  | EmptyString => 0
  | String c0 s1 =>
      if Go.code c0 <? 128 then 1
      else
        match seqLen c0, s1 with
        | 2, String c1 _ => if secondOK c0 c1 then 2 else 1
        | 3, String c1 (String c2 _) =>
            if secondOK c0 c1 && isCont c2 then 3 else 1
        | 4, String c1 (String c2 (String c3 _)) =>
            if secondOK c0 c1 && isCont c2 && isCont c3 then 4 else 1
        | _, _ => 1
        end
  end.

(** The instructions a pattern without operators compiles to: a byte
    stands for itself and [.] for any rune but the newline. *)
Inductive inst : Type := Lit (c : ascii) | AnyNotNL.

Fixpoint compile (pattern : string) : list inst :=
  match pattern with
  | EmptyString => []
  | String c p => (if Ascii.eqb c "." then AnyNotNL else Lit c) :: compile p
  end.

(** Matching the instructions at the head of [s]: the rest of [s]. *)
Fixpoint matchInsts (p : list inst) (s : string) : option string :=
  match p with
  | [] => Some s
  | Lit c :: p' =>
      match s with
      | String c' s' => if Ascii.eqb c' c then matchInsts p' s' else None
      | EmptyString => None
      end
  | AnyNotNL :: p' =>
      match s with
      | String c' _ =>
          if Ascii.eqb c' "010" then None
          else matchInsts p' (Go.drop (runeWidth s) s)
      | EmptyString => None
      end
  end.

Definition isDigit (c : ascii) : bool :=
  (48 <=? Go.code c) && (Go.code c <=? 57).

Fixpoint skipDigits (s : string) : string :=
  match s with
  | String c s' => if isDigit c then skipDigits s' else s
  | EmptyString => ""
  end.

(** A pattern [prefix ++ `\d+`]: the greedy match at the head of [s], as
    the rest of [s] after it. *)
Definition matchHere (prefix : list inst) (s : string) : option string :=
  match matchInsts prefix s with
  | Some (String c r) => if isDigit c then Some (skipDigits r) else None
  | _ => None
  end.

(** *** [Regexp.Expand] for a pattern without groups

    [extract]: the name after a [$], as the number of bytes it takes
    together with its braces, and whether it is the number 0. *)
Definition isNameByte (c : ascii) : bool :=
  let n := Go.code c in
  (97 <=? n) && (n <=? 122) || (65 <=? n) && (n <=? 90) ||
  (48 <=? n) && (n <=? 57) || (n =? 95).

Section Expand.
Context {L : StdLib}.

(** The length of the longest prefix of letters, digits and [_]. *)
Fixpoint nameLen (skip : nat) (s : string) : nat :=
  match s with
  | EmptyString => 0
  | String c s' =>
      match skip with
      | S k => S (nameLen k s')
      | O =>
          if Go.code c <? 128
          then if isNameByte c then S (nameLen 0 s') else 0
          else
            match letterOrDigitWidth s with
            | O => 0
            | S w => S (nameLen w s')
            end
      end
  end.

Definition extract (str : string) : option (string * nat) :=
  match str with
  | EmptyString => None
  | String c str' =>
      let brace := Ascii.eqb c "{" in
      let body := if brace then str' else str in
      let i := nameLen 0 body in
      if i =? 0 then None
      else if brace then
        if String.eqb (String.substring i 1 body) "}"
        then Some (String.substring 0 i body, i + 2)
        else None
      else Some (String.substring 0 i body, i)
  end.

(** The pattern has no capture group: [$0] and [${0}] stand for the whole
    match, every other well-formed reference for the empty string, [$$]
    for a dollar sign, and a malformed reference is raw text. *)
Fixpoint expand (skip : nat) (template matched : string) : string :=
  match template with
  | EmptyString => ""
  | String c t' =>
      match skip with
      | S k => expand k t' matched
      | O =>
          if negb (Ascii.eqb c "$") then String c (expand 0 t' matched)
          else if Go.HasPrefix t' "$" then String "$" (expand 1 t' matched)
          else
            match extract t' with
            | None => String "$" (expand 0 t' matched)
            | Some (name, n) =>
                (if String.eqb name "0" then matched else "")
                  +:+ expand n t' matched
            end
      end
  end.

(** [re.ReplaceAllString(src, repl)] for [re = prefix ++ `\d+`]: the
    leftmost matches, none overlapping another.  A match starts with an
    ASCII byte here, so every start the byte-wise search finds is a rune
    boundary of the rune-wise search of Go. *)
Fixpoint replaceAll (prefix : list inst) (repl : string) (skip : nat)
    (src : string) : string :=
  match src with
  | EmptyString => ""
  | String c src' =>
      match skip with
      | S k => replaceAll prefix repl k src'
      | O =>
          match matchHere prefix src with
          | Some rest =>
              let n := String.length src - String.length rest in
              expand 0 repl (String.substring 0 n src)
                +:+ replaceAll prefix repl (n - 1) src'
          | None => String c (replaceAll prefix repl 0 src')
          end
      end
  end.

Definition ReplaceAllString (prefix : list inst) (src repl : string) : string :=
  replaceAll prefix repl 0 src.

End Expand.
End Regexp.

(** ** The filter: requests, responses, the store and the PAC cache *)

Definition localhost2 : string := "127.0.1.2".

Record Request : Type := mkRequest {
  Host : string;        (* [req.Host] *)
  URLPath : string      (* [req.URL.Path] *)
}.

Section FixProxyPac.
Context {L : StdLib}.

(** [regexp.MustCompile(`PROXY ` + localhost2 + `:\d+`)]: the dots of the
    address are not escaped. *)
Definition placeholder : list Regexp.inst :=
  Regexp.compile ("PROXY " +:+ localhost2 +:+ ":").

Definition fixProxyPac (s : string) (req : Request) : string :=
  Regexp.ReplaceAllString placeholder s ("PROXY " +:+ Host req).

End FixProxyPac.

(** [http.Header], by canonical key. *)
Definition Header : Type := list (string * string).

Fixpoint headerGet (h : Header) (key : string) : string :=
  match h with
  | [] => ""
  | (k, v) :: h' => if String.eqb k key then v else headerGet h' key
  end.

Record Response : Type := mkResponse {
  StatusCode : Z;
  RespHeader : Header;
  RespRequest : option Request;
  Close : bool;
  ContentLength : Z;
  Body : option Reader         (* [None] is the nil [io.ReadCloser] *)
}.

Definition StatusOK : Z := 200.
Definition StatusNotFound : Z := 404.

(** What a store method returns, a response pointer and an error, [None]
    being [nil] on either side. *)
Definition StoreResult : Type := (option Response * option error)%type.

(** [storage.Store], an interface implemented outside this package: any
    state type with the four methods. *)
Class StoreFacade (S : Type) : Type := {
  Get : string -> S -> StoreResult * S;
  Head : string -> S -> StoreResult * S;
  Put : string -> Header -> Reader -> S -> StoreResult * S;
  Delete : string -> S -> StoreResult * S
}.

(** *** The PAC cache

    [lrucache.LRUCache] of the cloudflare library, as its callers see it:
    [Set] stores a value with the time it expires at, [Get] finds a
    stored value, [Clear] drops everything.  [Get] is called at a time
    but does not compare it with the expiry of the entry: a value that
    has expired is found as well (the library has [GetNotStale] for the
    lookup that drops it, and the handler does not call it).  The
    eviction of old entries when the cache is full is not modelled. *)
Inductive cacheValue : Type := VString (s : string) | VOther.

Record cacheEntry : Type := mkEntry { ceValue : cacheValue; ceExpire : Z }.

Module Cache.

Definition Get (c : gmap string cacheEntry) (key : string) (now : Z)
    : option cacheValue :=
  match c !! key with
  | Some e => Some (ceValue e)
  | None => None
  end.

Definition Set_ (c : gmap string cacheEntry) (key : string) (v : cacheValue)
    (expire : Z) : gmap string cacheEntry :=
  <[key := mkEntry v expire]> c.

Definition Clear (c : gmap string cacheEntry) : gmap string cacheEntry := ∅.

End Cache.

(** [time.Duration] counts nanoseconds in an [int64]. *)
Definition Minute : Z := 60 * 1000000000.
Definition minDuration : Z := - 2 ^ 63.
Definition maxDuration : Z := 2 ^ 63 - 1.

(** [t.Sub(u)]: the difference, or the nearest duration when it does not
    fit. *)
Definition timeSub (t u : Z) : Z :=
  Z.max minDuration (Z.min maxDuration (t - u)).

(** *** The filter *)

Record GFWListDomains : Type := mkDomains { Domains : list string }.

Record GFWListConfig : Type := mkConfig {
  Filename : string;
  URL : string;
  Encoding : string;
  Expiry : Z;         (* a [time.Duration] *)
  Duration : Z
}.

Record Filter (S : Type) : Type := mkFilter {
  Store : S;
  ProxyPacCache : gmap string cacheEntry;
  GFWListEnabled : bool;
  GFWListDomains_ : GFWListDomains;
  GFWList : GFWListConfig
}.
Arguments mkFilter {S}.
Arguments Store {S}.
Arguments ProxyPacCache {S}.
Arguments GFWListEnabled {S}.
Arguments GFWListDomains_ {S}.
Arguments GFWList {S}.

(** How a call ends: it returns, a run-time panic unwinds it, or
    [glog.Fatalf] ends the process. *)
Inductive outcome (A : Type) : Type :=
  | Done (a : A)
  | Panic (what : string)
  | Fatal (msg : string).
Arguments Done {A}.
Arguments Panic {A}.
Arguments Fatal {A}.

#[global] Instance outcome_ret : MRet outcome := fun A a => Done a.

#[global] Instance outcome_bind : MBind outcome := fun A B k m =>
  match m with
  | Done a => k a
  | Panic what => Panic what
  | Fatal msg => Fatal msg
  end.

Definition nilDeref : string := "invalid memory address or nil pointer dereference".
Definition sliceBounds : string := "slice bounds out of range".

(** Following a pointer that may be [nil]. *)
Definition deref {A : Type} (p : option A) : outcome A :=
  match p with
  | Some a => Done a
  | None => Panic nilDeref
  end.

(** ** GFWListDomainsMatch *)

Fixpoint matchDomains (d : string) (domains : list string) : bool :=
  match domains with
  | [] => false
  | domain :: rest =>
      if String.eqb d domain || Go.HasSuffix d ("." +:+ domain) then true
      else matchDomains d rest
  end.

(** The read lock taken around the loop has no effect on a single call. *)
Definition GFWListDomainsMatch (d : string) (cd : GFWListDomains) : bool :=
  if String.eqb d "" then false else matchDomains d (Domains cd).

Definition NewGFWListDomains : GFWListDomains := mkDomains [].

(** ** ProxyPacRoundTrip *)

Definition q (s : string) : string := Go.dquote +:+ s +:+ Go.dquote.

Definition unlines (ls : list string) : string :=
  foldr (fun l rest => l +:+ Go.newline +:+ rest) "" ls.

(** The result of the [fmt.Sprintf] that generates the default script. *)
Definition defaultPac (port : string) : string :=
  unlines [
    "// User-defined FindProxyForURL";
    "var whiteList = new Array(";
    Go.tab +:+ "// " +:+ q "ruanyifeng.com" +:+ ",";
    ");";
    "function FindProxyForURL(url, host) {";
    "    if (isPlainHostName(host) ||";
    "        isInNet(host, " +:+ q "10.0.0.0" +:+ ", " +:+ q "255.0.0.0" +:+ ") ||";
    "        isInNet(host, " +:+ q "172.16.0.0" +:+ ", " +:+ q "255.240.0.0" +:+ ") ||";
    "        isInNet(host, " +:+ q "169.254.0.0" +:+ ", " +:+ q "255.255.0.0" +:+ ") ||";
    "        isInNet(host, " +:+ q "192.168.0.0" +:+ ", " +:+ q "255.255.0.0" +:+ ") ||";
    "        isInNet(host, " +:+ q "127.0.0.0" +:+ ", " +:+ q "255.255.255.0" +:+ ") ||";
    "        shExpMatch(host, " +:+ q "*.local" +:+ ") ||";
    "        shExpMatch(host, 'localhost.*')) {";
    "        return 'DIRECT';";
    "    }";
    "";
    "    if (shExpMatch(host, '*.google*.*')) {";
    "        return 'PROXY " +:+ localhost2 +:+ ":" +:+ port +:+ "';";
    "    }";
    "";
    "    return 'DIRECT';";
    "}"
  ].

(** The second raw string written when the list is enabled. *)
Definition wrapperPac : string :=
  Go.newline +:+
  unlines [
    "for (i in whiteList) {";
    Go.tab +:+ "delete sites[whiteList[i]];";
    "}";
    "function FindProxyForURL(url, host) {";
    "    if ((p = MyFindProxyForURL(url, host)) != " +:+ q "DIRECT" +:+ ") {";
    "        return p";
    "    }";
    "";
    "    var lastPos;";
    "    do {";
    "        if (sites.hasOwnProperty(host)) {";
    "            return 'PROXY " +:+ localhost2 +:+ ":8087';";
    "        }";
    "        lastPos = host.indexOf('.') + 1;";
    "        host = host.slice(lastPos);";
    "    } while (lastPos >= 1);";
    "    return 'DIRECT';"
  ] +:+ "}".

(** [io.WriteString(buf, s)] *)
Definition WriteString (buf s : string) : string := buf +:+ s.

(** The loop over [f.GFWListDomains.Domains]. *)
Definition writeSiteEntries (buf : string) (domains : list string) : string :=
  foldl (fun buf site => WriteString buf (q site +:+ ":1," +:+ Go.newline))
        buf domains.

(** Everything written to [buf] when [f.GFWListEnabled] holds. *)
Definition writeSites (buf : string) (domains : list string) : string :=
  let buf := WriteString buf (Go.newline +:+ "var sites = {" +:+ Go.newline) in
  let buf := writeSiteEntries buf domains in
  let buf := WriteString buf (q "google.com" +:+ ":1" +:+ Go.newline) in
  let buf := WriteString buf ("}" +:+ Go.newline) in
  WriteString buf wrapperPac.

Definition pacResponse (req : Request) (s : string) : Response :=
  {| StatusCode := StatusOK;
     RespHeader := [];
     RespRequest := Some req;
     Close := true;
     ContentLength := Z.of_nat (String.length s);
     Body := Some (NewReader s) |}.

Section Handler.
Context {L : StdLib} {S : Type} {F : StoreFacade S}.

Definition withStore (f : Filter S) (st : S) : Filter S :=
  mkFilter st (ProxyPacCache f) (GFWListEnabled f) (GFWListDomains_ f) (GFWList f).

Definition withCache (f : Filter S) (c : gmap string cacheEntry) : Filter S :=
  mkFilter (Store f) c (GFWListEnabled f) (GFWListDomains_ f) (GFWList f).

Definition withDomains (f : Filter S) (ds : list string) : Filter S :=
  mkFilter (Store f) (ProxyPacCache f) (GFWListEnabled f) (mkDomains ds) (GFWList f).

(** The template read back from the store, lines 191 to 199: nothing is
    written to [buf] when the read or [ReadAll] fails. *)
Definition readTemplate (enabled : bool) (r : StoreResult) : outcome string :=
  match r with
  | (resp, None) =>
      resp ← deref resp;
      body ← deref (Body resp);
      match ReadAll body with
      | (b, None) =>
          Done (if enabled
                then Go.ReplaceFirst b "function FindProxyForURL(" "function MyFindProxyForURL("
                else b)
      | (_, Some _) => Done ""
      end
  | (_, Some _) => Done ""
  end.

(** The cache miss. [tSet] is the [time.Now()] of the [Set]. *)
Definition renderPac (tSet : Z) (f : Filter S) (req : Request) (port : string)
    : outcome (StoreResult * Filter S) :=
  if String.eqb (URLPath req) "" then Panic sliceBounds
  else
    let filename := Go.drop 1 (URLPath req) in
    let '((resp, err), st) := Get filename (Store f) in
    missing ←
      (if IsNotExist err then Done true
       else resp ← deref resp; Done (StatusCode resp =? StatusNotFound)%Z);
    st ←
      (if missing : bool then
         let st := (Put filename [] (NewReader (defaultPac port)) st).2 in
         resp ← deref resp;
         Done st
       else Done st);
    match err with
    | Some e => Done ((None, Some e), withStore f st)
    | None =>
        let '(r, st) := Get filename st in
        b ← readTemplate (GFWListEnabled f) r;
        let buf := WriteString "" b in
        let buf :=
          if GFWListEnabled f
          then writeSites buf (Domains (GFWListDomains_ f))
          else buf in
        let s := buf in
        let cache := Cache.Set_ (ProxyPacCache f) (URLPath req) (VString s)
                                (tSet + 15 * Minute)%Z in
        let s := fixProxyPac s req in
        Done ((Some (pacResponse req s), None), withCache (withStore f st) cache)
    end.

(** [tGet] is the time at which the cache is asked, [tSet] the time at
    which a rendered text is put into it. *)
Definition ProxyPacRoundTrip (tGet tSet : Z) (f : Filter S) (req : Request)
    : outcome (StoreResult * Filter S) :=
  let port :=
    match splitHostPort_port (Host req) with
    | Some port => port
    | None => "80"
    end in
  match Cache.Get (ProxyPacCache f) (URLPath req) tGet with
  | Some (VString s) =>
      let s := fixProxyPac s req in
      Done ((Some (pacResponse req s), None), f)
  | _ => renderPac tSet f req port
  end.

End Handler.

(** ** legallyParseGFWList and the updater *)

(** What one round of the updater does to the world outside its own
    variables, in the order it does it. *)
Inductive event : Type :=
  | EvStoreHead (name : string)
  | EvRoundTrip (url : string)
  | EvStoreDelete (name : string)
  | EvStorePut (name data : string)
  | EvLock                               (* [f.GFWListDomains.mu.Lock()] *)
  | EvStoreGet (name : string)
  | EvDomainsSet (domains : list string) (* the assignment to [Domains] *)
  | EvUnlock
  | EvCacheClear
  | EvWarning (format : string)          (* [glog.Warningf] *)
  | EvError (format : string).           (* [glog.Errorf] *)

(** What the world answers in one round: the clock, whether
    [http.NewRequest] accepts the URL, and the transport's round trip. *)
Record Tick : Type := mkTick {
  tickNow : Z;
  newRequestErr : option error;
  roundTrip : StoreResult
}.

(** How a round ends when the loop goes on: at the [continue] of an up to
    date list, at the [continue] after a warning, or at its last line. *)
Inductive roundEnd : Type := UpToDate | GaveUp | Updated.

(** The updater runs on the filter and on the record of what it has done
    so far; every operation below adds its own entry to the record when
    it runs. *)
Definition Run (S A : Type) : Type :=
  Filter S * list event -> outcome (A * (Filter S * list event)).

#[global] Instance Run_ret {S : Type} : MRet (Run S) := fun A a σ => Done (a, σ).

#[global] Instance Run_bind {S : Type} : MBind (Run S) := fun A B k m σ =>
  match m σ with
  | Done (a, σ') => k a σ'
  | Panic what => Panic what
  | Fatal msg => Fatal msg
  end.

Section Updater.
Context {L : StdLib} {S : Type} {F : StoreFacade S}.

Definition emit (e : event) : Run S unit :=
  fun '(f, done) => Done (tt, (f, done ++ [e])).

(** A call of a method of [f.Store]. *)
Definition callStore (method : S -> StoreResult * S) (e : event) : Run S StoreResult :=
  fun '(f, done) =>
    let '(r, st) := method (Store f) in
    Done (r, (withStore f st, done ++ [e])).

(** [f.GFWList] *)
Definition readConfig : Run S GFWListConfig :=
  fun '(f, done) => Done (GFWList f, (f, done)).

(** [f.GFWListDomains.Domains = domains] *)
Definition setDomains (domains : list string) : Run S unit :=
  fun '(f, done) => Done (tt, (withDomains f domains, done ++ [EvDomainsSet domains])).

(** [f.ProxyPacCache.Clear()] *)
Definition clearCache : Run S unit :=
  fun '(f, done) =>
    Done (tt, (withCache f (Cache.Clear (ProxyPacCache f)), done ++ [EvCacheClear])).

Definition Warningf (format : string) : Run S unit := emit (EvWarning format).
Definition Errorf (format : string) : Run S unit := emit (EvError format).
Definition Fatalf {A : Type} (format : string) : Run S A := fun _ => Fatal format.

Definition follow {A : Type} (p : option A) : Run S A :=
  fun σ => match p with
           | Some a => Done (a, σ)
           | None => Panic nilDeref
           end.

Definition legallyParseGFWList (filename : string)
    : Run S (list string * option error) :=
  '(resp, err) ← callStore (Get filename) (EvStoreGet filename);
  match err with
  | Some e =>
      _ ← Errorf "GetObject(%#v) error: %v";
      mret ([], Some e)
  | None =>
      resp ← follow resp;
      body ← follow (Body resp);
      match parseAutoProxy body with
      | (_, Some e) =>
          _ ← Errorf "parseAutoProxy(%#v) error: %v";
          mret ([], Some e)
      | (sites, None) => mret (merge_sort String.le sites, None)
      end
  end.

(** The reader the body is read through, by [f.GFWList.Encoding]. *)
Definition decodeBody (encoding : string) (r : Reader) : Reader :=
  if String.eqb encoding "base64" then
    match base64Decode (rdData r) with
    | (data, Some e) => mkReader data (Some e)
    | (data, None) => mkReader data (rdErr r)
    end
  else r.

(** Lines 282 to 334: from the download to the cleared cache.  The
    domains are assigned before the error of the parse is looked at. *)
Definition refresh (t : Tick) : Run S roundEnd :=
  cfg ← readConfig;
  match newRequestErr t with
  | Some _ =>
      _ ← Warningf "NewRequest(%#v) error: %v";
      mret GaveUp
  | None =>
      _ ← emit (EvRoundTrip (URL cfg));
      match roundTrip t with
      | (_, Some _) =>
          _ ← Warningf "%T.RoundTrip(%#v) error: %v";
          mret GaveUp
      | (resp, None) =>
          resp ← follow resp;
          body ← follow (Body resp);
          match ReadAll (decodeBody (Encoding cfg) body) with
          | (_, Some _) =>
              _ ← Warningf "ioutil.ReadAll(%T) error: %v";
              mret GaveUp
          | (data, None) =>
              '(_, err) ← callStore (Delete (Filename cfg)) (EvStoreDelete (Filename cfg));
              match err with
              | Some _ =>
                  _ ← Warningf "%T.DeleteObject(%#v) error: %v";
                  mret GaveUp
              | None =>
                  '(_, err) ← callStore (Put (Filename cfg) [] (NewReader data))
                                        (EvStorePut (Filename cfg) data);
                  match err with
                  | Some _ =>
                      _ ← Warningf "%T.PutObject(%#v) error: %v";
                      mret GaveUp
                  | None =>
                      _ ← emit EvLock;
                      '(domains, err) ← legallyParseGFWList (Filename cfg);
                      _ ← setDomains domains;
                      match err with
                      | Some _ => Fatalf "AUTOPROXY: legallyParseGFWList error: %v"
                      | None =>
                          _ ← emit EvUnlock;
                          _ ← clearCache;
                          mret Updated
                      end
                  end
              end
          end
      end
  end.

(** One iteration of the [for] loop of [pacUpdater], entered when the
    ticker fires: the [case <-ticker] of the [select], and after it the
    download unless a [continue] ends the round. *)
Definition pacUpdaterRound (t : Tick) : Run S roundEnd :=
  cfg ← readConfig;
  '(resp, err) ← callStore (Head (Filename cfg)) (EvStoreHead (Filename cfg));
  match err with
  | Some _ =>
      _ ← Warningf "stat gfwlist(%#v) err: %v";
      mret GaveUp
  | None =>
      resp ← follow resp;
      let lm := headerGet (RespHeader resp) "Last-Modified" in
      if String.eqb lm "" then
        _ ← Warningf "gfwlist(%#v) header(%#v) does not contains last-modified";
        mret GaveUp
      else
        match timeParse lm with
        | None =>
            _ ← Warningf "stat gfwlist(%#v) has parse %#v error: %v";
            mret GaveUp
        | Some modTime =>
            if (timeSub (tickNow t) modTime <? Expiry cfg)%Z
            then mret UpToDate
            else refresh t
        end
  end.

(** The loop itself, over the answers of the world to its first rounds:
    a panic or a fatal log ends it. *)
Fixpoint pacUpdater (ticks : list Tick) : Run S unit :=
  match ticks with
  | [] => mret tt
  | t :: ticks =>
      _ ← pacUpdaterRound t;
      pacUpdater ticks
  end.

End Updater.

(** ** GFWListInit

    The configuration it reads, by the fields it uses, and the functions
    of the repository outside this package that it calls: they are left
    abstract like the standard library. *)
Record InitConfig : Type := mkInitConfig {
  EnableRemoteDNS : bool;       (* [config.GFWList.EnableRemoteDNS] *)
  DNSServer : string;           (* [config.GFWList.DNSServer] *)
  ConfigDuration : Z;           (* [config.GFWList.Duration], in seconds *)
  ProxyEnabled : bool;          (* [config.GFWList.Proxy.Enabled] *)
  ProxyURL : string;            (* [config.GFWList.Proxy.URL] *)
  FilterEnabled : bool;         (* [config.GFWList.Filter.Enabled] *)
  FilterRule : string           (* [config.GFWList.Filter.Rule] *)
}.

Class Helpers : Type := {
  (** whether [helpers.ParseIPPort] returns an error *)
  ParseIPPort_fails : string -> bool;
  (** whether [proxy.FromURL] returns an error for the parsed URL *)
  FromURL_fails : string -> bool;
  (** [filters.GetFilter]: [None] for an error, else whether the filter
      found is a [filters.RoundTripFilter] *)
  GetFilter : string -> option bool
}.

(** What the function sets up besides the domains: the DNS server of the
    resolver, the expiry of resolved names, whether the transport dials
    through the proxy, and the rule of the downstream filter.

    Two statements of the function are left out, neither of which decides
    whether or what it returns.  The loop over [config.Hosts] fills the
    resolver's [lrucache.NewLRUCache(4096)] in the order of a Go map
    range, so what the cache holds past its capacity is not determined.
    The last statement, [go pacOnceUpdater.Do(f.pacUpdater)], hands the
    updater to a [sync.Once] of the package in a new goroutine: whether
    this filter's updater ever runs depends on the other calls and on the
    scheduler. *)
Record Wiring : Type := mkWiring {
  wDNSServer : option string;
  wDNSExpiry : Z;
  wViaProxy : bool;
  wFilterRule : option string
}.

(** The product of two [int64], as Go computes it. *)
Definition wrap64 (z : Z) : Z := ((z + 2 ^ 63) mod 2 ^ 64 - 2 ^ 63)%Z.

Definition Second : Z := 1000000000.

Section Init.
Context {L : StdLib} {H : Helpers} {S : Type} {F : StoreFacade S}.

Definition enabled : Run S bool := fun '(f, done) => Done (GFWListEnabled f, (f, done)).

(** [f.GFWListDomains = NewGFWListDomains()] *)
Definition newDomains : Run S unit :=
  fun '(f, done) => Done (tt, (withDomains f (Domains NewGFWListDomains), done)).

Definition GFWListInit (config : InitConfig) : Run S (option Wiring) :=
  on ← enabled;
  if on : bool then
    _ ← (if EnableRemoteDNS config && ParseIPPort_fails (DNSServer config)
         then Fatalf "AUTOPROXY: helpers.ParseIPPort(%v) failed"
         else mret tt);
    viaProxy ←
      (if ProxyEnabled config then
         match urlParseHost (ProxyURL config) with
         | None => Fatalf "url.Parse(%#v) error: %s"
         | Some _ =>
             if FromURL_fails (ProxyURL config)
             then Fatalf "proxy.FromURL(%#v) error: %s"
             else mret true
         end
       else mret false);
    cfg ← readConfig;
    _ ← newDomains;
    _ ← emit EvLock;
    '(domains, err) ← legallyParseGFWList (Filename cfg);
    _ ← setDomains domains;
    _ ← (match err with
         | Some _ => Fatalf "AUTOPROXY: legallyParseGFWList error: %v"
         | None => emit EvUnlock
         end);
    rule ←
      (if FilterEnabled config then
         let name := if String.eqb (FilterRule config) "" then "direct"
                     else FilterRule config in
         match GetFilter name with
         | None =>
             Fatalf "AUTOPROXY: filters.GetFilter(%#v) for GFWList.Filter.Rule error: %v"
         | Some false =>
             Fatalf "AUTOPROXY: filters.GetFilter(%#v) return %T, not a RoundTripFilter"
         | Some true => mret (Some name)
         end
       else mret None);
    mret (Some {| wDNSServer := if EnableRemoteDNS config
                                then Some (DNSServer config) else None;
                  wDNSExpiry := wrap64 (ConfigDuration config * Second);
                  wViaProxy := viaProxy;
                  wFilterRule := rule |})
  else mret None.

End Init.

(** ** A store and a standard library to run the definitions on

    A store kept in memory: named files with the date they were written
    at, and a queue of results that the next reads are made to return. *)
Module Example.

Record MemStore : Type := mkMem {
  files : gmap string (string * string);
  faults : list StoreResult
}.

Definition found (data date : string) (withBody : bool) : Response :=
  {| StatusCode := StatusOK;
     RespHeader := [("Last-Modified", date)];
     RespRequest := None;
     Close := false;
     ContentLength := Z.of_nat (String.length data);
     Body := if withBody then Some (NewReader data) else None |}.

Definition notFound : Response :=
  {| StatusCode := StatusNotFound;
     RespHeader := [];
     RespRequest := None;
     Close := false;
     ContentLength := 0;
     Body := Some (NewReader "") |}.

Definition epoch : string := "Thu, 01 Jan 1970 00:00:00 GMT".

Definition memRead (withBody : bool) (name : string) (st : MemStore)
    : StoreResult * MemStore :=
  match faults st with
  | r :: rs => (r, mkMem (files st) rs)
  | [] =>
      match files st !! name with
      | Some (data, date) => ((Some (found data date withBody), None), st)
      | None => ((Some notFound, None), st)
      end
  end.

#[export] Instance memStore : StoreFacade MemStore := {|
  Get := memRead true;
  Head := memRead false;
  Put := fun name _ body st =>
    ((Some (found "" epoch false), None),
     mkMem (<[name := (rdData body, epoch)]> (files st)) (faults st));
  Delete := fun name st =>
    ((Some (found "" epoch false), None), mkMem (delete name (files st)) (faults st))
|}.

(** A standard library that knows one date and no Unicode letters. *)
#[export] Instance lib : StdLib := {|
  urlParseHost := fun _ => None;
  splitHostPort_port := fun _ => None;
  timeParse := fun s => if String.eqb s epoch then Some 0%Z else None;
  base64Decode := fun s => (s, None);
  letterOrDigitWidth := fun _ => 0
|}.

Definition config : GFWListConfig :=
  {| Filename := "gfwlist.txt";
     URL := "https://example.org/gfwlist.txt";
     Encoding := "";
     Expiry := 3600 * 1000000000;
     Duration := 600 * 1000000000 |}.

Definition filter (st : MemStore) (domains : list string) : Filter MemStore :=
  mkFilter st ∅ true (mkDomains domains) config.

Definition emptyStore : MemStore := mkMem ∅ [].

(** A store that holds an old list, and two answers of the remote side:
    a list of two lines, and one line that the scanner cannot hold. *)
Definition oldStore : MemStore := mkMem {[ "gfwlist.txt" := ("||old.com", epoch) ]} [].

Definition newList : string := "||new.com" +:+ Go.newline +:+ "a.b/c".

Fixpoint replicate (n : nat) (c : ascii) : string :=
  match n with
  | O => ""
  | S n => String c (replicate n c)
  end.

Definition longLine : string := replicate (N.to_nat Scanner.MaxScanTokenSize) "a".

Definition download (data : string) : StoreResult := (Some (found data epoch true), None).

Definition hour : Z := 3600 * 1000000000.

Definition pacRequest (host : string) : Request := mkRequest host "/proxy.pac".

End Example.

(** Helpers that accept one DNS server and know the filter direct. *)
Module InitExample.

#[export] Instance helpers : Helpers := {|
  ParseIPPort_fails := fun s => negb (String.eqb s "8.8.8.8:53");
  FromURL_fails := fun _ => false;
  GetFilter := fun name => if String.eqb name "direct" then Some true else None
|}.

Definition config : InitConfig :=
  {| EnableRemoteDNS := true;
     DNSServer := "8.8.8.8:53";
     ConfigDuration := 3600;
     ProxyEnabled := false;
     ProxyURL := "";
     FilterEnabled := true;
     FilterRule := "" |}.

End InitExample.

(** ** The vocabulary of the statements *)

(** A rule set the updater can publish: what [legallyParseGFWList] makes
    of some readable list. *)
Definition published (R : list string) : Prop :=
  exists (L : StdLib) (body : Reader),
    (parseAutoProxy body).2 = None /\
    R = merge_sort String.le (parseAutoProxy body).1.

(** [d] ends with a dot followed by the rule [r]. *)
Definition dotSuffix (d r : string) : Prop :=
  exists p, d = p +:+ "." +:+ r.

(** The input is a single line of the scanner: no newline in it, and
    short enough for the buffer. *)
Definition oneLine (l : string) : Prop :=
  Go.ContainsByte l "010" = false /\ Scanner.tooLong l = false.

(** What the loop body works on for the raw line [l]. *)
Definition lineText (l : string) : string := Go.TrimSpace (Scanner.dropCR l).

(** The line has one of the shapes that the first three cases of the
    [switch] take. *)
Definition otherShape (s : string) : bool :=
  Go.HasPrefix s "||" || Go.HasPrefix s "|http://" || Go.HasPrefix s ".".






(** The text is a port: decimal digits only. *)
Fixpoint allDigits (s : string) : bool :=
  match s with
  | EmptyString => true
  | String c s' => Regexp.isDigit c && allDigits s'
  end.

(** No instruction of [q] can start a match at the head of [s]. *)
Fixpoint noneStarts (q : list Regexp.inst) (s : string) : bool :=
  match q with
  | [] => true
  | _ :: q' =>
      match Regexp.matchInsts q s with
      | Some _ => false
      | None => noneStarts q' s
      end
  end.

(** * Properties *)

(** ** Strings *)

Module StringFacts.

(** stdpp keeps [simpl] from unfolding [+:+]; these two equations do it. *)
Lemma app_nil_l (b : string) : "" +:+ b = b.
Proof. reflexivity. Qed.

Lemma app_cons (x : ascii) (a b : string) : String x a +:+ b = String x (a +:+ b).
Proof. reflexivity. Qed.

Ltac sapp := rewrite ?app_cons, ?app_nil_l.

Lemma app_assoc (a b c : string) : (a +:+ b) +:+ c = a +:+ (b +:+ c).
Proof. induction a as [|x a IH]; sapp; [reflexivity | now rewrite IH]. Qed.


Lemma length_app (a b : string) :
  String.length (a +:+ b) = String.length a + String.length b.
Proof. induction a as [|x a IH]; sapp; simpl; [reflexivity | now rewrite IH]. Qed.

Lemma ContainsByte_app (a b : string) (c : ascii) :
  Go.ContainsByte (a +:+ b) c = Go.ContainsByte a c || Go.ContainsByte b c.
Proof.
  induction a as [|x a IH]; sapp; simpl; [reflexivity |].
  now rewrite IH, orb_assoc.
Qed.

Lemma drop_app_length (a b : string) : Go.drop (String.length a) (a +:+ b) = b.
Proof. induction a as [|x a IH]; sapp; simpl; [now destruct b | exact IH]. Qed.

Lemma drop_split (n : nat) (s : string) : exists p, s = p +:+ Go.drop n s.
Proof.
  revert s; induction n as [|n IH]; intros s.
  - exists "". now destruct s.
  - destruct s as [|c s]; [now exists "" |].
    destruct (IH s) as [p Hp]. exists (String c p). sapp. simpl. now rewrite <- Hp.
Qed.

Lemma HasSuffix_spec (s suffix : string) :
  Go.HasSuffix s suffix = true <-> exists p, s = p +:+ suffix.
Proof.
  unfold Go.HasSuffix. rewrite andb_true_iff, Nat.leb_le, String.eqb_eq. split.
  - intros [_ Hd]. destruct (drop_split (String.length s - String.length suffix) s) as [p Hp].
    exists p. now rewrite <- Hd.
  - intros [p ->]. rewrite length_app. split; [lia |].
    replace (String.length p + String.length suffix - String.length suffix)
      with (String.length p) by lia.
    apply drop_app_length.
Qed.

End StringFacts.

(** ** GFWListDomainsMatch *)

Lemma matchDomains_spec (d : string) (domains : list string) :
  matchDomains d domains = true <->
  exists r, In r domains /\ (d = r \/ dotSuffix d r).
Proof.
  induction domains as [|domain rest IH]; simpl.
  - split; [discriminate | intros (r & [] & _)].
  - destruct (String.eqb d domain || Go.HasSuffix d ("." +:+ domain)) eqn:E.
    + split; [intros _ | reflexivity]. exists domain. split; [now left |].
      apply orb_true_iff in E as [E | E].
      * left. now apply String.eqb_eq.
      * right. now apply StringFacts.HasSuffix_spec in E.
    + rewrite IH. apply orb_false_iff in E as [E1 E2].
      split; intros (r & Hin & Hr).
      * exists r. split; [now right | exact Hr].
      * destruct Hin as [<- | Hin]; [| now exists r].
        exfalso. destruct Hr as [-> | Hr].
        -- now rewrite String.eqb_refl in E1.
        -- apply StringFacts.HasSuffix_spec in Hr. congruence.
Qed.

(** C1, as the code has it: the match holds exactly of the non-empty
    domains that equal a rule or end with a dot followed by a rule; the
    empty domain matches nothing, also when the empty string is a rule. *)
Theorem GFWListDomainsMatch_spec (d : string) (cd : GFWListDomains) :
  GFWListDomainsMatch d cd = true <->
  d <> "" /\ exists r, In r (Domains cd) /\ (d = r \/ dotSuffix d r).
Proof.
  unfold GFWListDomainsMatch. destruct (String.eqb_spec d "") as [-> | Hne].
  - split; [discriminate | now intros [[] _]].
  - rewrite matchDomains_spec. tauto.
Qed.

(** C1 as stated fails: the line [||] publishes the empty rule, which the
    empty domain equals and does not match. *)
Lemma GFWListDomainsMatch_empty_rule :
  published [""] /\
  ~ (GFWListDomainsMatch "" (mkDomains [""]) = true <->
     exists r, In r [""] /\ ("" = r \/ dotSuffix "" r)).
Proof.
  split.
  - exists Example.lib, (NewReader "||"). split; reflexivity.
  - intros [_ Hm]. discriminate Hm. exists "". split; [now left | now left].
Qed.

(** ** parseAutoProxy *)

Section ParserFacts.
Context {L : StdLib}.

Lemma rawLines_oneLine (l : string) :
  Go.ContainsByte l "010" = false ->
  Scanner.rawLines l = if String.eqb l "" then [] else [l].
Proof.
  induction l as [|c l IH]; simpl; [reflexivity |].
  intros Hc. apply orb_false_iff in Hc as [Hc Hl]. rewrite Hc, (IH Hl).
  now destruct l.
Qed.

(** A single line adds what the loop body finds in it. *)
Lemma parseAutoProxy_oneLine (l : string) :
  oneLine l ->
  parseAutoProxy (NewReader l) =
  (match lineSite (lineText l) with
   | Some site => if String.eqb l "" then [] else [site]
   | None => []
   end, None).
Proof.
  intros [Hnl Hlen]. unfold parseAutoProxy, Scanner.Tokens, Scanner.Err. simpl.
  rewrite (rawLines_oneLine l Hnl).
  destruct (String.eqb l "") eqn:El; simpl.
  - rewrite elements_empty. now destruct (lineSite (lineText l)).
  - rewrite Hlen. simpl. unfold addLine, lineText.
    destruct (lineSite _) as [site|].
    + now rewrite union_empty_r_L, elements_singleton.
    + now rewrite elements_empty.
Qed.

(** Outside the first three shapes a line adds a rule only if the text
    before its first slash matches the host expression. *)
Lemma lineSite_default (s : string) :
  otherShape s = false ->
  hostRegexpMatch (Go.first (Go.Split s "/")) = false ->
  lineSite s = None.
Proof.
  unfold otherShape, lineSite. intros Hs Hr.
  apply orb_false_iff in Hs as [Hs H3]. apply orb_false_iff in Hs as [H1 H2].
  rewrite H1, H2, H3, Hr. destruct (skipped s); [reflexivity |].
  now destruct (negb _).
Qed.

(** C4, as the code has it: the text after the last [*.] of the host is
    kept whole, so the line yields the rule foo.bar. *)
Theorem parseAutoProxy_wildcard_foo_bar :
  parseAutoProxy (NewReader "||*.foo.bar/path") = (["foo.bar"], None).
Proof. reflexivity. Qed.

(** C5, as the code has it: the five lines give what the claim says.
    The loop works on the line with the white space around it trimmed: a
    line whose trimmed text is empty adds no rule, and a line whose
    trimmed text has none of the shapes [||], [|http://] and [.] adds no
    rule when the part of the trimmed text before its first slash is
    empty or has a byte outside [A-Za-z0-9._-]; bytes after the first
    slash are not looked at. *)
Theorem parseAutoProxy_lines :
  parseAutoProxy (NewReader "||*.example.com/x") = (["example.com"], None) /\
  parseAutoProxy (NewReader ".example.co/y") = (["example.com"], None) /\
  parseAutoProxy (NewReader "example.net") = (["example.net"], None) /\
  parseAutoProxy (NewReader "@@||allowed.com") = ([], None) /\
  parseAutoProxy (NewReader "") = ([], None) /\
  (forall l, oneLine l -> lineText l = "" ->
     parseAutoProxy (NewReader l) = ([], None)) /\
  (forall l, oneLine l ->
     otherShape (lineText l) = false ->
     hostRegexpMatch (Go.first (Go.Split (lineText l) "/")) = false ->
     parseAutoProxy (NewReader l) = ([], None)).
Proof.
  repeat split; try reflexivity.
  - intros l Hl Ht. rewrite (parseAutoProxy_oneLine l Hl), Ht. reflexivity.
  - intros l Hl Hs Hr.
    now rewrite (parseAutoProxy_oneLine l Hl), (lineSite_default _ Hs Hr).
Qed.

End ParserFacts.

(** C4 as stated fails: the line yields one rule, and it is not bar. *)
Lemma parseAutoProxy_wildcard_not_bar :
  (parseAutoProxy (L := Example.lib) (NewReader "||*.foo.bar/path")).1 = ["foo.bar"] /\
  ~ In "bar" (parseAutoProxy (L := Example.lib) (NewReader "||*.foo.bar/path")).1.
Proof. split; vm_compute; [reflexivity | intros [E | []]; discriminate E]. Qed.

(** C5 as stated fails: the slash of [example.net/x] is outside the
    bytes of a host, the line has none of the other shapes, and it adds
    the rule example.net. *)
Lemma parseAutoProxy_path_after_host :
  allHostBytes "example.net/x" = false /\
  otherShape (lineText "example.net/x") = false /\
  parseAutoProxy (L := Example.lib) (NewReader "example.net/x")
    = (["example.net"], None).
Proof. vm_compute. repeat split. Qed.

(** A line with a space in its host adds no rule. *)
Lemma parseAutoProxy_lines_witness :
  parseAutoProxy (L := Example.lib) (NewReader "exa mple.net") = ([], None).
Proof.
  apply (proj2 (proj2 (proj2 (proj2 (proj2 (proj2 (parseAutoProxy_lines (L := Example.lib)))))))).
  - split; reflexivity.
  - reflexivity.
  - reflexivity.
Defined.

(** ** The sites literal *)

Module SitesFacts.
Import StringFacts.







End SitesFacts.




(** ** ProxyPacRoundTrip *)

Section HandlerFacts.
Context {L : StdLib} {S : Type} {F : StoreFacade S}.

(** The script a miss renders: the template read back, and after it the
    literal and the wrapper when the list is enabled. *)
Lemma renderPac_done (tSet : Z) (f : Filter S) (req : Request) (port : string)
    (resp : option Response) (err : option error) (f' : Filter S) :
  renderPac tSet f req port = Done ((resp, err), f') ->
  (resp = None /\ err <> None /\ ProxyPacCache f' = ProxyPacCache f) \/
  (exists b,
     let s := if GFWListEnabled f
              then writeSites b (Domains (GFWListDomains_ f)) else b in
     resp = Some (pacResponse req (fixProxyPac s req)) /\ err = None /\
     ProxyPacCache f' =
       Cache.Set_ (ProxyPacCache f) (URLPath req) (VString s) (tSet + 15 * Minute)%Z).
Proof.
  unfold renderPac. destruct (String.eqb (URLPath req) ""); [discriminate |].
  destruct (Get _ (Store f)) as [[r e] st].
  destruct (IsNotExist e), r as [r|]; simpl;
    try destruct (StatusCode r =? StatusNotFound)%Z; simpl; try discriminate.
  all: destruct e as [e|]; [intros [= <- <- <-]; left; now repeat split |].
  all: match goal with |- context [Get ?n ?st] => destruct (Get n st) as [r2 st2] end.
  all: destruct (readTemplate (GFWListEnabled f) r2) as [b| |] eqn:Eb; simpl; try discriminate.
  all: intros [= <- <- <-]; right; exists b; now repeat split.
Qed.


(** What the cache holds after a call that answers: on a hit what it
    held, the answer being the cached text rewritten; on a miss the
    rendered text as it was before the rewriting, to expire 15 minutes
    after the time of the [Set]. *)
Lemma ProxyPacRoundTrip_cache (tGet tSet : Z) (f : Filter S) (req : Request)
    (resp : Response) (err : option error) (f' : Filter S) :
  ProxyPacRoundTrip tGet tSet f req = Done ((Some resp, err), f') ->
  exists s,
    resp = pacResponse req (fixProxyPac s req) /\
    ((Cache.Get (ProxyPacCache f) (URLPath req) tGet = Some (VString s) /\ f' = f) \/
     ((forall s', Cache.Get (ProxyPacCache f) (URLPath req) tGet <> Some (VString s')) /\
      ProxyPacCache f' !! URLPath req = Some (mkEntry (VString s) (tSet + 15 * Minute)%Z))).
Proof.
  unfold ProxyPacRoundTrip.
  destruct (Cache.Get _ _ _) as [[s|]|] eqn:Ec.
  - intros [= <- <- <-]. exists s. split; [reflexivity |]. now left.
  - intros Hr. apply renderPac_done in Hr as [(Hn & _) | (b & Hr & -> & Hc)]; [discriminate |].
    injection Hr as ->. eexists. split; [reflexivity |]. right.
    split; [discriminate |]. rewrite Hc. apply lookup_insert_eq.
  - intros Hr. apply renderPac_done in Hr as [(Hn & _) | (b & Hr & -> & Hc)]; [discriminate |].
    injection Hr as ->. eexists. split; [reflexivity |]. right.
    split; [discriminate |]. rewrite Hc. apply lookup_insert_eq.
Qed.

(** A read that reports a missing file without a response is a nil
    dereference as well, after the default script has been put. *)
Lemma renderPac_not_exist_nil (tSet : Z) (f : Filter S) (req : Request)
    (port name : string) (st : S) :
  URLPath req <> "" ->
  Get (Go.drop 1 (URLPath req)) (Store f) = ((None, Some (ErrNotExist name)), st) ->
  renderPac tSet f req port = Panic nilDeref.
Proof.
  intros Hpath Hget. unfold renderPac.
  apply String.eqb_neq in Hpath. now rewrite Hpath, Hget.
Qed.

(** C10: on a miss the first read of the store is looked into before its
    error is: a failed read that is not a does-not-exist error and comes
    with no response is a nil dereference, never the returned error; with
    a response the error is returned.  So a call that returns had a
    response with every such failure. *)
Theorem ProxyPacRoundTrip_first_read (tGet tSet : Z) (f : Filter S) (req : Request)
    (resp : option Response) (e : error) (st : S) :
  (forall s, Cache.Get (ProxyPacCache f) (URLPath req) tGet <> Some (VString s)) ->
  URLPath req <> "" ->
  Get (Go.drop 1 (URLPath req)) (Store f) = ((resp, Some e), st) ->
  IsNotExist (Some e) = false ->
  (resp = None -> ProxyPacRoundTrip tGet tSet f req = Panic nilDeref) /\
  (resp <> None ->
   exists f', ProxyPacRoundTrip tGet tSet f req = Done ((None, Some e), f')) /\
  ((exists r, ProxyPacRoundTrip tGet tSet f req = Done r) -> resp <> None).
Proof.
  intros Hmiss Hpath Hget Hne.
  assert (E : ProxyPacRoundTrip tGet tSet f req =
              renderPac tSet f req
                (match splitHostPort_port (Host req) with Some p => p | None => "80" end)).
  { unfold ProxyPacRoundTrip. destruct (Cache.Get _ _ _) as [[s|]|] eqn:Ec; try reflexivity.
    now destruct (Hmiss s). }
  rewrite E. unfold renderPac.
  apply String.eqb_neq in Hpath. rewrite Hpath, Hget, Hne.
  destruct resp as [r|]; simpl.
  - split; [discriminate |]. split; [| congruence]. intros _.
    destruct (StatusCode r =? StatusNotFound)%Z; simpl; eauto.
  - split; [reflexivity |]. split; [congruence |]. intros [r Hr]. discriminate Hr.
Qed.

End HandlerFacts.

(** A store whose first read fails with no response makes the handler
    panic. *)
Lemma ProxyPacRoundTrip_first_read_witness :
  ProxyPacRoundTrip (L := Example.lib) (F := Example.memStore) 0 0
    (Example.filter (Example.mkMem ∅ [(None, Some (ErrOther "read error"))]) [])
    (Example.pacRequest "10.0.0.1:8087") = Panic nilDeref.
Proof.
  eapply (ProxyPacRoundTrip_first_read (L := Example.lib) (F := Example.memStore)).
  - intros s. discriminate.
  - discriminate.
  - reflexivity.
  - reflexivity.
  - reflexivity.
Defined.


(** ** The updater *)

Section UpdaterFacts.
Context {L : StdLib} {S : Type} {F : StoreFacade S}.

(** Unfolding the operations of a run that is given its state. *)
Ltac run :=
  cbv beta iota delta
    [mbind mret Run_bind Run_ret emit callStore readConfig setDomains clearCache
     Warningf Errorf Fatalf follow];
  cbn [Store GFWList ProxyPacCache GFWListDomains_ withStore withCache withDomains].


(** C9: when the head of the local copy bears a date that parses and is
    younger than the expiry, the round ends there: the head is the only
    thing done, and the domains and the cache are what they were. *)
Theorem pacUpdaterRound_up_to_date (t : Tick) (f : Filter S)
    (resp : Response) (st : S) (modTime : Z) :
  Head (Filename (GFWList f)) (Store f) = ((Some resp, None), st) ->
  headerGet (RespHeader resp) "Last-Modified" <> "" ->
  timeParse (headerGet (RespHeader resp) "Last-Modified") = Some modTime ->
  (timeSub (tickNow t) modTime < Expiry (GFWList f))%Z ->
  pacUpdaterRound t (f, []) =
    Done (UpToDate, (withStore f st, [EvStoreHead (Filename (GFWList f))])).
Proof.
  intros Hh Hlm Hp Hage. unfold pacUpdaterRound. run. rewrite Hh. run.
  apply String.eqb_neq in Hlm. rewrite Hlm, Hp.
  apply Z.ltb_lt in Hage. cbn [GFWList withStore]. now rewrite Hage.
Qed.


(** What C2 is about: once the new bytes are in the store, a list that
    cannot be parsed ends the process, whatever the store and the list. *)
Lemma refresh_parse_error_fatal (t : Tick) (f : Filter S) (done : list event)
    (resp : Response) (body : Reader) (data : string)
    (r1 r2 : option Response) (st1 st2 : S)
    (e : error) (ds : list string) (σ : Filter S * list event) :
  newRequestErr t = None ->
  roundTrip t = (Some resp, None) ->
  Body resp = Some body ->
  ReadAll (decodeBody (Encoding (GFWList f)) body) = (data, None) ->
  Delete (Filename (GFWList f)) (Store f) = ((r1, None), st1) ->
  Put (Filename (GFWList f)) [] (NewReader data) st1 = ((r2, None), st2) ->
  legallyParseGFWList (Filename (GFWList f))
    (withStore (withStore f st1) st2,
     (((done ++ [EvRoundTrip (URL (GFWList f))])
         ++ [EvStoreDelete (Filename (GFWList f))])
        ++ [EvStorePut (Filename (GFWList f)) data]) ++ [EvLock])
    = Done ((ds, Some e), σ) ->
  refresh t (f, done) = Fatal "AUTOPROXY: legallyParseGFWList error: %v".
Proof.
  intros Hn Hr Hb Hd Hdel Hput Hp. unfold refresh. run.
  rewrite Hn. run. rewrite Hr. run. rewrite Hb, Hd. run. rewrite Hdel. run.
  cbn [GFWList withStore Store]. rewrite Hput. run.
  rewrite Hp. destruct σ. reflexivity.
Qed.

End UpdaterFacts.

(** A list written at the epoch is up to date half an hour later. *)
Lemma pacUpdaterRound_up_to_date_witness :
  pacUpdaterRound (L := Example.lib) (F := Example.memStore)
    (mkTick (Example.hour / 2) None (Example.download Example.newList))
    (Example.filter Example.oldStore ["old.com"], []) =
  Done (UpToDate, (Example.filter Example.oldStore ["old.com"],
                   [EvStoreHead "gfwlist.txt"])).
Proof.
  apply (pacUpdaterRound_up_to_date (L := Example.lib) (F := Example.memStore)
           (mkTick (Example.hour / 2) None (Example.download Example.newList))
           (Example.filter Example.oldStore ["old.com"])
           (Example.found "||old.com" Example.epoch false) Example.oldStore 0).
  - reflexivity.
  - discriminate.
  - reflexivity.
  - reflexivity.
Defined.


(** C2, the code at a list it can be sent: a line of 65536 bytes is too
    long for the scanner, the parse of the stored list fails, and the
    round ends in the fatal log instead of a warning and the next round. *)
Theorem pacUpdaterRound_unparsable_list_fatal :
  pacUpdaterRound (L := Example.lib) (F := Example.memStore)
    (mkTick (2 * Example.hour) None (Example.download Example.longLine))
    (Example.filter Example.oldStore ["old.com"], []) =
  Fatal "AUTOPROXY: legallyParseGFWList error: %v".
Proof. vm_compute. reflexivity. Qed.

(** ** fixProxyPac *)

Module RegexpFacts.
Import StringFacts Regexp.

Lemma drop_app (n : nat) (a s : string) :
  n <= String.length a -> Go.drop n (a +:+ s) = Go.drop n a +:+ s.
Proof.
  revert a. induction n as [|n IH]; intros a Hn.
  - now destruct a, s.
  - destruct a as [|c a]; simpl in Hn; [lia |]. sapp. simpl. apply IH. lia.
Qed.

Lemma length_drop (n : nat) (a : string) :
  String.length (Go.drop n a) <= String.length a.
Proof.
  revert a. induction n as [|n IH]; intros a.
  - now destruct a.
  - destruct a as [|c a]; simpl; [lia |]. specialize (IH a). lia.
Qed.

Lemma substring_app (n : nat) (a s : string) :
  n <= String.length a ->
  String.substring 0 n (a +:+ s) = String.substring 0 n a.
Proof.
  revert a. induction n as [|n IH]; intros a Hn.
  - now destruct a, s.
  - destruct a as [|c a]; simpl in Hn; [lia |]. sapp. simpl. rewrite IH; [reflexivity | lia].
Qed.

Lemma substring_all (a s : string) :
  String.substring 0 (String.length a) (a +:+ s) = a.
Proof.
  induction a as [|c a IH]; sapp; simpl.
  - now destruct s.
  - now rewrite IH.
Qed.

(** *** The width of a rune does not depend on an ASCII byte after it *)

Lemma secondOK_ascii (c0 p : ascii) : Go.code p < 128 -> secondOK c0 p = false.
Proof.
  intros Hp. unfold secondOK. apply andb_false_iff. left. apply Nat.leb_gt.
  destruct (Go.code c0 =? 224); [lia |]. destruct (Go.code c0 =? 240); lia.
Qed.

Lemma isCont_ascii (p : ascii) : Go.code p < 128 -> isCont p = false.
Proof.
  intros Hp. unfold isCont. apply andb_false_iff. left. apply Nat.leb_gt. lia.
Qed.

Lemma runeWidth_le (a : string) : runeWidth a <= String.length a.
Proof.
  destruct a as [|c0 a]; simpl; [lia |].
  destruct (Go.code c0 <? 128); [lia |].
  destruct (seqLen c0) as [|[|[|[|[|n]]]]]; try lia.
  - destruct a as [|c1 a]; [lia |]. destruct (secondOK c0 c1); simpl; lia.
  - destruct a as [|c1 [|c2 a]]; try lia.
    destruct (secondOK c0 c1 && isCont c2); simpl; lia.
  - destruct a as [|c1 [|c2 [|c3 a]]]; try lia.
    destruct (secondOK c0 c1 && isCont c2 && isCont c3); simpl; lia.
Qed.

Lemma runeWidth_app (a t : string) (p : ascii) :
  a <> "" -> Go.code p < 128 ->
  runeWidth (a +:+ String p t) = runeWidth a.
Proof.
  intros Ha Hp. destruct a as [|c0 a]; [congruence |]. sapp. simpl.
  destruct (Go.code c0 <? 128); [reflexivity |].
  pose proof (secondOK_ascii c0 p Hp) as H2. pose proof (isCont_ascii p Hp) as Hc.
  destruct (seqLen c0) as [|[|[|[|[|n]]]]];
    destruct a as [|c1 [|c2 [|c3 a]]]; sapp; try reflexivity;
    destruct t as [|t1 [|t2 t]]; rewrite ?H2, ?Hc, ?andb_false_r; reflexivity.
Qed.

(** *** Matching in front of a text that no instruction can start at *)

Lemma matchInsts_app (q : list inst) (a t : string) (p : ascii) :
  Go.code p < 128 ->
  noneStarts q (String p t) = true ->
  matchInsts q (a +:+ String p t) =
  match matchInsts q a with
  | Some r => Some (r +:+ String p t)
  | None => None
  end.
Proof.
  intros Hp. revert a. induction q as [|i q IH]; intros a Hq; [reflexivity |].
  cbn [noneStarts] in Hq.
  destruct (matchInsts (i :: q) (String p t)) eqn:E0; [discriminate |].
  destruct a as [|c a].
  - rewrite app_nil_l, E0. now destruct i.
  - destruct i as [x|]; sapp; cbn [matchInsts].
    + destruct (Ascii.eqb c x); [now apply IH | reflexivity].
    + destruct (Ascii.eqb c "010"); [reflexivity |].
      rewrite <- app_cons, runeWidth_app, drop_app by (congruence || apply runeWidth_le || exact Hp).
      now apply IH.
Qed.

(** The same for a pattern whose first instruction is used up by [a]. *)
Lemma matchInsts_app_cons (i : inst) (q : list inst) (x : ascii) (a t : string)
    (p : ascii) :
  Go.code p < 128 ->
  noneStarts q (String p t) = true ->
  matchInsts (i :: q) (String x a +:+ String p t) =
  match matchInsts (i :: q) (String x a) with
  | Some r => Some (r +:+ String p t)
  | None => None
  end.
Proof.
  intros Hp Hq. destruct i as [c|]; rewrite app_cons; cbn [matchInsts].
  - destruct (Ascii.eqb x c); [now apply matchInsts_app | reflexivity].
  - destruct (Ascii.eqb x "010"); [reflexivity |].
    rewrite <- app_cons, runeWidth_app, drop_app
      by (congruence || apply runeWidth_le || exact Hp).
    now apply matchInsts_app.
Qed.

Lemma matchInsts_length (q : list inst) (a r : string) :
  matchInsts q a = Some r -> String.length r <= String.length a.
Proof.
  revert a. induction q as [|i q IH]; intros a; simpl.
  - now intros [= ->].
  - destruct i as [x|]; destruct a as [|c a]; try discriminate.
    + destruct (Ascii.eqb c x); [| discriminate]. intros Hm. apply IH in Hm. simpl. lia.
    + destruct (Ascii.eqb c "010"); [discriminate |]. intros Hm. apply IH in Hm.
      pose proof (length_drop (runeWidth (String c a)) (String c a)). lia.
Qed.

Lemma skipDigits_app (r t : string) (p : ascii) :
  isDigit p = false ->
  skipDigits (r +:+ String p t) = skipDigits r +:+ String p t.
Proof.
  intros Hp. induction r as [|c r IH]; sapp; simpl.
  - now rewrite Hp.
  - destruct (isDigit c); [exact IH | reflexivity].
Qed.

Lemma skipDigits_length (r : string) :
  String.length (skipDigits r) <= String.length r.
Proof.
  induction r as [|c r IH]; simpl; [lia |].
  destruct (isDigit c); simpl; lia.
Qed.

Lemma skipDigits_port (port b : string) :
  allDigits port = true -> skipDigits b = b -> skipDigits (port +:+ b) = b.
Proof.
  intros Hd Hb. induction port as [|c port IH]; sapp; simpl in *; [exact Hb |].
  apply andb_true_iff in Hd as [Hc Hd]. rewrite Hc. now apply IH.
Qed.

(** A match found in [a] is the match found in [a] followed by more. *)
Lemma matchHere_app (i : inst) (q : list inst) (x : ascii) (a t : string)
    (p : ascii) :
  Go.code p < 128 -> isDigit p = false ->
  noneStarts q (String p t) = true ->
  matchHere (i :: q) (String x a +:+ String p t) =
  match matchHere (i :: q) (String x a) with
  | Some r => Some (r +:+ String p t)
  | None => None
  end.
Proof.
  intros Hp Hd Hq. unfold matchHere. rewrite (matchInsts_app_cons i q x a t p Hp Hq).
  destruct (matchInsts (i :: q) (String x a)) as [[|c r]|]; sapp.
  - now rewrite Hd.
  - destruct (isDigit c); [| reflexivity]. now rewrite (skipDigits_app r t p Hd).
  - reflexivity.
Qed.

Lemma matchHere_length (q : list inst) (a r : string) :
  matchHere q a = Some r -> String.length r < String.length a.
Proof.
  unfold matchHere. destruct (matchInsts q a) as [[|c r']|] eqn:Em; try discriminate.
  destruct (isDigit c); [| discriminate]. intros [= <-].
  apply matchInsts_length in Em. simpl in Em.
  pose proof (skipDigits_length r'). lia.
Qed.

Section Replace.
Context {L : StdLib}.

Lemma expand_plain (template matched : string) :
  Go.ContainsByte template "$" = false -> expand 0 template matched = template.
Proof.
  induction template as [|c t IH]; simpl; [reflexivity |].
  intros Hc. apply orb_false_iff in Hc as [Hc Ht]. now rewrite Hc, (IH Ht).
Qed.

(** Passing over the bytes of a match. *)
Lemma replaceAll_skip (q : list inst) (repl x rest : string) :
  replaceAll q repl (String.length x) (x +:+ rest) = replaceAll q repl 0 rest.
Proof.
  induction x as [|c x IH]; sapp; simpl; [| exact IH].
  now destruct rest.
Qed.

(** Replacing where a match starts. *)
Lemma replaceAll_match (q : list inst) (repl x rest : string) (c : ascii) :
  matchHere q (String c x +:+ rest) = Some rest ->
  replaceAll q repl 0 (String c x +:+ rest) =
  expand 0 repl (String c x) +:+ replaceAll q repl 0 rest.
Proof.
  intros Hm. rewrite app_cons in *. cbn [replaceAll]. rewrite Hm.
  replace (String.length (String c (x +:+ rest)) - String.length rest)
    with (String.length (String c x))
    by (cbn [String.length]; rewrite length_app; lia).
  rewrite <- app_cons, substring_all. cbn [String.length].
  replace (S (String.length x) - 1) with (String.length x) by lia.
  now rewrite replaceAll_skip.
Qed.

(** Replacing in front of a text that starts a match of its own. *)
Lemma replaceAll_app (i : inst) (q : list inst) (repl a t : string) (p : ascii)
    (skip : nat) :
  Go.code p < 128 -> isDigit p = false ->
  noneStarts q (String p t) = true ->
  skip <= String.length a ->
  replaceAll (i :: q) repl skip (a +:+ String p t) =
  replaceAll (i :: q) repl skip a +:+ replaceAll (i :: q) repl 0 (String p t).
Proof.
  intros Hp Hd Hq.
  remember (replaceAll (i :: q) repl 0 (String p t)) as tail eqn:Et.
  revert skip.
  induction a as [|x a IH]; intros skip Hs.
  - simpl in Hs. replace skip with 0 by lia. now rewrite app_nil_l, Et.
  - rewrite app_cons. cbn [replaceAll]. destruct skip as [|k].
    + rewrite <- app_cons, (matchHere_app i q x a t p Hp Hd Hq).
      destruct (matchHere (i :: q) (String x a)) as [r|] eqn:Em.
      * pose proof (matchHere_length _ _ _ Em) as Hl.
        assert (En : String.length (String x a +:+ String p t)
                       - String.length (r +:+ String p t)
                     = String.length (String x a) - String.length r)
          by (rewrite !length_app; lia).
        rewrite En, substring_app by lia.
        cbn [String.length] in *.
        rewrite IH by lia. now rewrite app_assoc.
      * rewrite IH by lia. reflexivity.
    + apply IH. simpl in Hs. lia.
Qed.

End Replace.

End RegexpFacts.

Section FixProxyPacFacts.
Context {L : StdLib}.
Import StringFacts RegexpFacts.

Lemma matchHere_placeholder (port b : string) :
  port <> "" -> allDigits port = true -> Regexp.skipDigits b = b ->
  Regexp.matchHere placeholder ("PROXY " +:+ localhost2 +:+ ":" +:+ port +:+ b)
  = Some b.
Proof.
  intros Hne Hd Hb. destruct port as [|d port]; [congruence |].
  simpl in Hd. apply andb_true_iff in Hd as [Hd Hp].
  unfold Regexp.matchHere.
  replace (Regexp.matchInsts placeholder
             ("PROXY " +:+ localhost2 +:+ ":" +:+ String d port +:+ b))
    with (Some (String d (port +:+ b))) by reflexivity.
  now rewrite Hd, (skipDigits_port port b Hp Hb).
Qed.

(** X9: for a host without a dollar sign, a placeholder with its port is
    rewritten to the host wherever it stands in the script, and the text
    before and after it is rewritten on its own. *)
Lemma fixProxyPac_placeholder (a port b : string) (req : Request) :
  Go.ContainsByte (Host req) "$" = false ->
  port <> "" -> allDigits port = true -> Regexp.skipDigits b = b ->
  fixProxyPac (a +:+ "PROXY " +:+ localhost2 +:+ ":" +:+ port +:+ b) req =
  fixProxyPac a req +:+ "PROXY " +:+ Host req +:+ fixProxyPac b req.
Proof.
  intros Hh Hne Hd Hb. unfold fixProxyPac, Regexp.ReplaceAllString.
  pose proof (matchHere_placeholder port b Hne Hd Hb) as Hm.
  change ("PROXY " +:+ localhost2 +:+ ":" +:+ port +:+ b)
    with (String "P" ("ROXY " +:+ localhost2 +:+ ":" +:+ port) +:+ b) in *.
  unfold placeholder at 1.
  change (Regexp.compile ("PROXY " +:+ localhost2 +:+ ":"))
    with (Regexp.Lit "P" :: Regexp.compile ("ROXY " +:+ localhost2 +:+ ":")).
  rewrite (app_cons "P" ("ROXY " +:+ localhost2 +:+ ":" +:+ port) b).
  rewrite (replaceAll_app _ _ _ a _ "P" 0)
    by (reflexivity || (vm_compute; lia) || lia).
  change (Regexp.Lit "P" :: Regexp.compile ("ROXY " +:+ localhost2 +:+ ":"))
    with placeholder.
  rewrite <- (app_cons "P" ("ROXY " +:+ localhost2 +:+ ":" +:+ port) b).
  rewrite (replaceAll_match _ _ _ _ _ Hm), expand_plain.
  - now rewrite !app_assoc.
  - now rewrite ContainsByte_app, Hh.
Qed.

End FixProxyPacFacts.

(** C6, the code at a request it can be sent: [ReplaceAllString] expands
    the dollar signs of its replacement, so for the host [$0] the
    placeholder of a cached script is rewritten to [PROXY ] followed by
    the placeholder itself, not to [PROXY $0]. *)
Theorem ProxyPacRoundTrip_dollar_host :
  let req := mkRequest "$0" "/proxy.pac" in
  let cached := "return 'PROXY 127.0.1.2:8087';" in
  let f := mkFilter Example.emptyStore
             (Cache.Set_ ∅ "/proxy.pac" (VString cached) (15 * Minute)%Z)
             true (mkDomains []) Example.config in
  (forall L : StdLib,
     fixProxyPac cached req = "return 'PROXY PROXY 127.0.1.2:8087';") /\
  ProxyPacRoundTrip (L := Example.lib) (F := Example.memStore) 0 0 f req =
    Done ((Some (pacResponse req "return 'PROXY PROXY 127.0.1.2:8087';"), None), f).
Proof. split; [intros L |]; vm_compute; reflexivity. Qed.

(** * Further properties of the code *)

(** ** parseAutoProxy: the rule set *)

Module SplitFacts.
Import StringFacts.

Lemma consHead_Forall (P : string -> Prop) (c : ascii) (parts : list string) :
  (forall p, P p -> P (String c p)) -> P (String c "") ->
  Forall P parts -> Forall P (Go.consHead c parts).
Proof.
  intros Hc H0 [|p ps Hp Hps]; simpl; constructor; auto.
Qed.

(** The pieces of a split are made of bytes of the string. *)
Lemma SplitN_go_bytes (sep : string) (y : ascii) (n skip : nat) (s : string) :
  Go.ContainsByte s y = false ->
  Forall (fun p => Go.ContainsByte p y = false) (Go.SplitN_go sep n skip s).
Proof.
  revert n skip. induction s as [|c s IH]; intros n skip Hs; simpl.
  - repeat constructor.
  - simpl in Hs. apply orb_false_iff in Hs as [Hc Hs].
    destruct skip as [|k]; [| now apply IH].
    destruct n as [|[|n]].
    + repeat constructor. simpl. now rewrite Hc, Hs.
    + repeat constructor. simpl. now rewrite Hc, Hs.
    + destruct (Go.HasPrefix (String c s) sep).
      * constructor; [reflexivity | now apply IH].
      * apply consHead_Forall; [| simpl; now rewrite Hc | now apply IH].
        intros p Hp. simpl. now rewrite Hc, Hp.
Qed.

(** The first piece of a split at a byte does not hold the byte. *)
Lemma SplitN_go_first (x : ascii) (n : nat) (s : string) :
  2 <= n ->
  Go.ContainsByte (Go.first (Go.SplitN_go (String x "") n 0 s)) x = false.
Proof.
  intros Hn. induction s as [|c s IH]; simpl; [reflexivity |].
  destruct n as [|[|n]]; try lia.
  destruct (Ascii.eqb c x) eqn:Ec; simpl; [reflexivity |].
  unfold Go.first in *.
  destruct (Go.SplitN_go (String x "") (S (S n)) 0 s) as [|p ps]; simpl in *.
  - now rewrite Ec.
  - now rewrite Ec, IH.
Qed.


Lemma final_Forall (P : string -> Prop) (parts : list string) :
  P "" -> Forall P parts -> P (Go.final parts).
Proof.
  intros H0 Hp. unfold Go.final. induction Hp as [|p ps Hp Hps IH]; simpl; [exact H0 |].
  destruct ps; [exact Hp | exact IH].
Qed.

Lemma first_Forall (P : string -> Prop) (parts : list string) :
  P "" -> Forall P parts -> P (Go.first parts).
Proof. intros H0 [|p ps Hp Hps]; simpl; assumption. Qed.

End SplitFacts.

Section RuleSetFacts.
Context {L : StdLib}.
Import StringFacts SplitFacts.

(** What the scanning loop has in [sites] after some lines. *)
Lemma foldl_addLine_elem (lines : list string) (acc : gset string) (site : string) :
  site ∈ foldl addLine acc lines <->
  site ∈ acc \/ exists line, In line lines /\ lineSite (Go.TrimSpace line) = Some site.
Proof.
  revert acc. induction lines as [|l lines IH]; intros acc; simpl.
  - split; [now left | intros [H | (line & [] & _)]; exact H].
  - rewrite IH. unfold addLine.
    destruct (lineSite (Go.TrimSpace l)) as [s|] eqn:El.
    + rewrite elem_of_union, elem_of_singleton. split.
      * intros [[-> | H] | (line & Hin & Hl)]; eauto.
      * intros [H | (line & [<- | Hin] & Hl)]; eauto.
        left. left. congruence.
    + split.
      * intros [H | (line & Hin & Hl)]; eauto.
      * intros [H | (line & [<- | Hin] & Hl)]; eauto. congruence.
Qed.

Lemma parseAutoProxy_elem (r : Reader) (site : string) :
  In site (parseAutoProxy r).1 <->
  Scanner.Err r = None /\
  exists line, In line (Scanner.Tokens r) /\ lineSite (Go.TrimSpace line) = Some site.
Proof.
  unfold parseAutoProxy. destruct (Scanner.Err r) as [e|]; simpl.
  - split; [intros [] | intros [[=] _]].
  - rewrite <- list_elem_of_In, elem_of_elements, foldl_addLine_elem.
    split.
    + intros [H | H]; [set_solver | now split].
    + intros [_ H]. now right.
Qed.

(** X1: a rule is in the result exactly when the scan ended without an
    error and some line of the list yields the rule. *)
Theorem parseAutoProxy_rules (r : Reader) (site : string) :
  In site (parseAutoProxy r).1 <->
  (parseAutoProxy r).2 = None /\
  exists line, In line (Scanner.Tokens r) /\ lineSite (Go.TrimSpace line) = Some site.
Proof.
  rewrite parseAutoProxy_elem. unfold parseAutoProxy.
  destruct (Scanner.Err r); simpl; split; intros [H1 H2]; split; auto; discriminate.
Qed.

Lemma parseAutoProxy_NoDup (r : Reader) : NoDup (parseAutoProxy r).1.
Proof.
  unfold parseAutoProxy. destruct (Scanner.Err r); simpl.
  - constructor.
  - apply NoDup_elements.
Qed.

End RuleSetFacts.

Section LineFacts.
Context {L : StdLib}.
Import StringFacts SplitFacts.

Lemma stripWildcard_bytes (y : ascii) (site : string) :
  Go.ContainsByte site y = false -> Go.ContainsByte (stripWildcard site) y = false.
Proof.
  intros Hs. unfold stripWildcard, Go.Split, Go.SplitN.
  destruct (Go.Contains site "*.").
  - apply (final_Forall (fun p => Go.ContainsByte p y = false)); [reflexivity |].
    now apply SplitN_go_bytes.
  - destruct (Go.HasPrefix site "*"); [| exact Hs].
    apply (final_Forall (fun p => Go.ContainsByte p y = false)); [reflexivity |].
    now apply SplitN_go_bytes.
Qed.

Lemma first_Split_no_sep (x : ascii) (s : string) :
  Go.ContainsByte (Go.first (Go.Split s (String x ""))) x = false.
Proof. unfold Go.Split. apply SplitN_go_first. lia. Qed.

(** Outside the [|http://] case the loop body never keeps a slash. *)
Lemma lineSite_no_slash (s site : string) :
  Go.HasPrefix s "|http://" = false ->
  lineSite s = Some site -> Go.ContainsByte site "/" = false.
Proof.
  intros Hh. unfold lineSite. rewrite Hh.
  destruct (skipped s); [discriminate |].
  destruct (Go.HasPrefix s "||").
  - intros [= <-]. apply stripWildcard_bytes, (first_Split_no_sep "/").
  - destruct (Go.HasPrefix s ".").
    + intros [= <-].
      assert (Hs : Go.ContainsByte
                     (Go.first (Go.Split (Go.first (Go.Split (Go.drop 1 s) "/")) "*")) "/"
                   = false).
      { unfold Go.Split at 1.
        apply (first_Forall (fun p => Go.ContainsByte p "/" = false)); [reflexivity |].
        apply SplitN_go_bytes, (first_Split_no_sep "/"). }
      destruct (Go.HasSuffix _ ".co"); [| exact Hs].
      rewrite ContainsByte_app. apply orb_false_iff. split; [exact Hs | reflexivity].
    + destruct (negb _); [| discriminate].
      destruct (hostRegexpMatch _); [| discriminate].
      intros [= <-]. apply (first_Split_no_sep "/").
Qed.

(** X2: when no line of the list has the shape [|http://], no rule of the
    result holds a slash: the path of a line never reaches the rule. *)
Theorem parseAutoProxy_no_path (r : Reader) (site : string) :
  (forall line, In line (Scanner.Tokens r) ->
     Go.HasPrefix (Go.TrimSpace line) "|http://" = false) ->
  In site (parseAutoProxy r).1 -> Go.ContainsByte site "/" = false.
Proof.
  intros Hl Hin. apply parseAutoProxy_elem in Hin as (_ & line & Hline & Hs).
  exact (lineSite_no_slash _ _ (Hl line Hline) Hs).
Qed.








End LineFacts.

Lemma parseAutoProxy_no_path_witness :
  Go.ContainsByte "example.com" "/" = false.
Proof.
  apply (parseAutoProxy_no_path (L := Example.lib)
           (NewReader ("||*.example.com/a/b" +:+ Go.newline +:+ ".t.co/x"))).
  - intros line [<- | [<- | []]]; reflexivity.
  - vm_compute. now left.
Defined.



(** ** parseAutoProxy: joining two lists *)

Section JoinFacts.
Context {L : StdLib}.
Import StringFacts.

(** The lines of two texts joined by a newline: those of the first, an
    empty line when the first ends a line itself, and those of the
    second. *)
Lemma rawLines_join (a b : string) :
  exists extra, (extra = [] \/ extra = [""]) /\
    Scanner.rawLines (a +:+ Go.newline +:+ b)
    = Scanner.rawLines a ++ extra ++ Scanner.rawLines b.
Proof.
  induction a as [|c a (extra & He & IH)]; sapp.
  - exists [""]. split; [now right | reflexivity].
  - simpl. destruct (Ascii.eqb c "010").
    + exists extra. split; [exact He |]. now rewrite IH.
    + rewrite IH. destruct (Scanner.rawLines a) as [|l ls] eqn:Ea.
      * destruct a as [|x a].
        -- exists []. split; [now left |].
           unfold Go.newline in IH. revert IH. sapp. simpl. intros IH.
           assert (extra = [""]) as ->.
           { destruct He as [-> | ->]; [| reflexivity].
             apply (f_equal length) in IH. simpl in IH. lia. }
           reflexivity.
        -- exfalso. simpl in Ea. destruct (Ascii.eqb x "010"); [discriminate |].
           destruct (Scanner.rawLines a); discriminate.
      * exists extra. split; [exact He | reflexivity].
Qed.

Lemma tokensOf_short (lines : list string) :
  existsb Scanner.tooLong lines = false ->
  Scanner.tokensOf lines = map Scanner.dropCR lines.
Proof.
  induction lines as [|l lines IH]; simpl; [reflexivity |].
  intros H. apply orb_false_iff in H as [Hl Hs]. now rewrite Hl, (IH Hs).
Qed.

Lemma Err_NewReader (data : string) :
  Scanner.Err (NewReader data) = None <->
  existsb Scanner.tooLong (Scanner.rawLines data) = false.
Proof.
  unfold Scanner.Err. simpl.
  destruct (existsb _ _); split; intros; congruence.
Qed.

Lemma parseAutoProxy_err (r : Reader) :
  (parseAutoProxy r).2 = None <-> Scanner.Err r = None.
Proof.
  unfold parseAutoProxy. destruct (Scanner.Err r); simpl; split; congruence.
Qed.

(** X5: two lists that parse, joined by a newline, parse to the union of
    their rules. *)
Theorem parseAutoProxy_join (a b : string) :
  (parseAutoProxy (NewReader a)).2 = None ->
  (parseAutoProxy (NewReader b)).2 = None ->
  (parseAutoProxy (NewReader (a +:+ Go.newline +:+ b))).2 = None /\
  forall site,
    In site (parseAutoProxy (NewReader (a +:+ Go.newline +:+ b))).1 <->
    In site (parseAutoProxy (NewReader a)).1 \/
    In site (parseAutoProxy (NewReader b)).1.
Proof.
  rewrite !parseAutoProxy_err, !Err_NewReader. intros Ha Hb.
  destruct (rawLines_join a b) as (extra & He & Hj).
  assert (Hx : existsb Scanner.tooLong extra = false)
    by (destruct He as [-> | ->]; reflexivity).
  assert (Hab : existsb Scanner.tooLong
                  (Scanner.rawLines (a +:+ Go.newline +:+ b)) = false)
    by (now rewrite Hj, !existsb_app, Ha, Hx, Hb).
  split; [exact Hab |]. intros site.
  rewrite !parseAutoProxy_elem, !Err_NewReader.
  unfold Scanner.Tokens. simpl.
  rewrite !tokensOf_short by assumption. rewrite Hj in *. rewrite !map_app.
  split.
  - intros (_ & line & Hin & Hs). apply in_app_or in Hin as [Hin | Hin].
    + left. split; [exact Ha | eauto].
    + apply in_app_or in Hin as [Hin | Hin].
      * exfalso. destruct He as [-> | ->]; [destruct Hin |].
        destruct Hin as [<- | []]. discriminate Hs.
      * right. split; [exact Hb | eauto].
  - intros [(_ & line & Hin & Hs) | (_ & line & Hin & Hs)].
    + split; [exact Hab |]. exists line. split; [| exact Hs].
      apply in_or_app. now left.
    + split; [exact Hab |]. exists line. split; [| exact Hs].
      apply in_or_app. right. apply in_or_app. now right.
Qed.

End JoinFacts.

Lemma parseAutoProxy_join_witness :
  In "b.com" (parseAutoProxy (L := Example.lib)
                (NewReader ("||a.com" +:+ Go.newline +:+ ".b.co"))).1.
Proof.
  destruct (parseAutoProxy_join (L := Example.lib) "||a.com" ".b.co" eq_refl eq_refl)
    as [_ H].
  apply (proj2 (H "b.com")). right. vm_compute. now left.
Defined.

(** ** GFWListDomainsMatch: subdomains and boundaries *)

Section MatchFacts.
Import StringFacts.

(** X6: what matches keeps matching under every further label: with a
    domain, every name that ends with a dot and the domain matches. *)
Theorem GFWListDomainsMatch_subdomain (d p : string) (cd : GFWListDomains) :
  GFWListDomainsMatch d cd = true ->
  GFWListDomainsMatch (p +:+ "." +:+ d) cd = true.
Proof.
  unfold GFWListDomainsMatch.
  destruct (String.eqb d ""); [discriminate |].
  assert (E : String.eqb (p +:+ "." +:+ d) "" = false) by now destruct p.
  rewrite E, !matchDomains_spec. intros (r & Hin & Hr).
  exists r. split; [exact Hin |]. right.
  destruct Hr as [-> | [p' ->]].
  - now exists p.
  - exists (p +:+ "." +:+ p'). now rewrite !app_assoc.
Qed.

(** X7: one byte in front of a rule matches the rule only if the byte is
    a dot: the suffix has to start at a label. *)
Theorem GFWListDomainsMatch_boundary (c : ascii) (r : string) :
  GFWListDomainsMatch (String c r) (mkDomains [r]) = true <-> c = "."%char.
Proof.
  unfold GFWListDomainsMatch. simpl String.eqb. cbn [Domains].
  rewrite matchDomains_spec. split.
  - intros (r' & [<- | []] & [Heq | [p Hp]]).
    + apply (f_equal String.length) in Heq. simpl in Heq. lia.
    + assert (p = "") as ->.
      { apply (f_equal String.length) in Hp. rewrite !length_app in Hp.
        simpl in Hp. destruct p; [reflexivity | simpl in Hp; lia]. }
      revert Hp. sapp. now intros [= ->].
  - intros ->. exists r. split; [now left |]. right. now exists "".
Qed.

(** X8: the answer depends on the rules as a set, not on their order or
    on repetitions. *)
Theorem GFWListDomainsMatch_set (d : string) (ds ds' : list string) :
  (forall r, In r ds <-> In r ds') ->
  GFWListDomainsMatch d (mkDomains ds) = GFWListDomainsMatch d (mkDomains ds').
Proof.
  intros Hs. unfold GFWListDomainsMatch. destruct (String.eqb d ""); [reflexivity |].
  cbn [Domains]. apply eq_true_iff_eq. rewrite !matchDomains_spec.
  split; intros (r & Hin & Hr); exists r; (split; [now apply Hs | exact Hr]).
Qed.

End MatchFacts.

Lemma GFWListDomainsMatch_subdomain_witness :
  GFWListDomainsMatch ("www" +:+ "." +:+ "foo.com") (mkDomains ["bar.org"; "foo.com"])
  = true.
Proof. apply GFWListDomainsMatch_subdomain. reflexivity. Defined.

Lemma GFWListDomainsMatch_set_witness :
  GFWListDomainsMatch "www.foo.com" (mkDomains ["foo.com"; "bar.org"; "foo.com"])
  = GFWListDomainsMatch "www.foo.com" (mkDomains ["bar.org"; "foo.com"]).
Proof.
  apply GFWListDomainsMatch_set. intros r. simpl. tauto.
Defined.

(** ** fixProxyPac: what is rewritten and what is not *)

Lemma fixProxyPac_placeholder_witness :
  let req := Example.pacRequest "10.0.0.1:8087" in
  fixProxyPac (L := Example.lib)
    ("return '" +:+ "PROXY " +:+ localhost2 +:+ ":" +:+ "8087" +:+ "';") req
  = fixProxyPac (L := Example.lib) "return '" req +:+ "PROXY " +:+ "10.0.0.1:8087"
      +:+ fixProxyPac (L := Example.lib) "';" req.
Proof.
  intros req.
  apply (fixProxyPac_placeholder (L := Example.lib) "return '" "8087" "';" req).
  - reflexivity.
  - discriminate.
  - reflexivity.
  - reflexivity.
Defined.

Section RewriteFacts.
Context {L : StdLib}.
Import StringFacts RegexpFacts.

(** A match starts with the nine bytes that the pattern starts with. *)
Lemma matchHere_prefix (s : string) :
  Go.HasPrefix s "PROXY 127" = false -> Regexp.matchHere placeholder s = None.
Proof.
  intros H. unfold Regexp.matchHere.
  change placeholder
    with (Regexp.compile "PROXY 127" ++ Regexp.compile ("." +:+ "0.1.2:")).
  generalize (Regexp.compile ("." +:+ "0.1.2:")). intros q.
  cbn [Regexp.compile app Ascii.eqb Bool.eqb].
  destruct s as [|c s]; [reflexivity |].
  cbn [Go.HasPrefix Regexp.matchInsts] in H |- *.
  do 8 (destruct (Ascii.eqb _ _); cbn [andb] in H; [| reflexivity];
        match type of H with
        | context [match ?t with EmptyString => _ | String _ _ => _ end] =>
            destruct t as [|? ?]; [reflexivity |]
        end).
  destruct (Ascii.eqb _ _); cbn [andb] in H; [discriminate H | reflexivity].
Qed.

(** X10: a script in which the bytes [PROXY 127] do not occur is served
    as it is, for every host. *)
Theorem fixProxyPac_unchanged (s : string) (req : Request) :
  Go.Contains s "PROXY 127" = false -> fixProxyPac s req = s.
Proof.
  unfold fixProxyPac, Regexp.ReplaceAllString.
  induction s as [|c s IH]; [reflexivity |].
  cbn [Go.Contains]. intros H. apply orb_false_iff in H as [Hp Hs].
  cbn [Regexp.replaceAll]. now rewrite (matchHere_prefix _ Hp), (IH Hs).
Qed.

(** The dots of the pattern stand for any ASCII byte but the newline. *)
Lemma matchHere_any_bytes (x y z : ascii) (port b : string) :
  Go.code x < 128 -> Go.code y < 128 -> Go.code z < 128 ->
  Ascii.eqb x "010" = false -> Ascii.eqb y "010" = false ->
  Ascii.eqb z "010" = false ->
  port <> "" -> allDigits port = true -> Regexp.skipDigits b = b ->
  Regexp.matchHere placeholder
    ("PROXY 127" +:+ String x ("0" +:+ String y ("1" +:+ String z ("2:" +:+ port +:+ b))))
  = Some b.
Proof.
  intros Hx Hy Hz Nx Ny Nz Hne Hd Hb. destruct port as [|d port]; [congruence |].
  simpl in Hd. apply andb_true_iff in Hd as [Hd Hp].
  apply Nat.ltb_lt in Hx, Hy, Hz.
  unfold Regexp.matchHere.
  replace (Regexp.matchInsts placeholder _) with (Some (String d (port +:+ b))).
  - now rewrite Hd, (skipDigits_port port b Hp Hb).
  - set (p := placeholder). vm_compute in p. subst p. sapp.
    cbn [Regexp.matchInsts Ascii.eqb Bool.eqb Regexp.runeWidth Go.drop].
    rewrite Nx, Hx. cbn [Regexp.matchInsts Ascii.eqb Bool.eqb Regexp.runeWidth Go.drop].
    rewrite Ny, Hy. cbn [Regexp.matchInsts Ascii.eqb Bool.eqb Regexp.runeWidth Go.drop].
    rewrite Nz, Hz. reflexivity.
Qed.

(** X11: the dots of the address are not escaped in the pattern, so a
    text that differs from the placeholder in the three bytes between the
    numbers is rewritten to the host as well. *)
Theorem fixProxyPac_any_separator (x y z : ascii) (a port b : string)
    (req : Request) :
  Go.code x < 128 -> Go.code y < 128 -> Go.code z < 128 ->
  Ascii.eqb x "010" = false -> Ascii.eqb y "010" = false ->
  Ascii.eqb z "010" = false ->
  Go.ContainsByte (Host req) "$" = false ->
  port <> "" -> allDigits port = true -> Regexp.skipDigits b = b ->
  fixProxyPac
    (a +:+ "PROXY 127" +:+
       String x ("0" +:+ String y ("1" +:+ String z ("2:" +:+ port +:+ b)))) req =
  fixProxyPac a req +:+ "PROXY " +:+ Host req +:+ fixProxyPac b req.
Proof.
  intros Hx Hy Hz Nx Ny Nz Hh Hne Hd Hb.
  pose proof (matchHere_any_bytes x y z port b Hx Hy Hz Nx Ny Nz Hne Hd Hb) as Hm.
  unfold fixProxyPac, Regexp.ReplaceAllString.
  set (m := "ROXY 127" +:+ String x ("0" +:+ String y ("1" +:+ String z ("2:" +:+ port)))).
  change ("PROXY 127" +:+
            String x ("0" +:+ String y ("1" +:+ String z ("2:" +:+ port +:+ b))))
    with (String "P" m +:+ b) in *.
  unfold placeholder at 1.
  change (Regexp.compile ("PROXY " +:+ localhost2 +:+ ":"))
    with (Regexp.Lit "P" :: Regexp.compile ("ROXY " +:+ localhost2 +:+ ":")).
  rewrite (app_cons "P" m b).
  rewrite (replaceAll_app _ _ _ a _ "P" 0)
    by (reflexivity || (vm_compute; lia) || lia).
  change (Regexp.Lit "P" :: Regexp.compile ("ROXY " +:+ localhost2 +:+ ":"))
    with placeholder.
  rewrite <- (app_cons "P" m b).
  rewrite (replaceAll_match _ _ _ _ _ Hm), expand_plain.
  - now rewrite !app_assoc.
  - now rewrite ContainsByte_app, Hh.
Qed.

End RewriteFacts.

Lemma fixProxyPac_unchanged_witness :
  fixProxyPac (L := Example.lib) "function FindProxyForURL(url, host) { return 'DIRECT'; }"
    (Example.pacRequest "10.0.0.1:8087")
  = "function FindProxyForURL(url, host) { return 'DIRECT'; }".
Proof. apply fixProxyPac_unchanged. reflexivity. Defined.

Lemma fixProxyPac_any_separator_witness :
  let req := Example.pacRequest "10.0.0.1:8087" in
  fixProxyPac (L := Example.lib)
    ("// " +:+ "PROXY 127" +:+
       String "x" ("0" +:+ String "y" ("1" +:+ String "z" ("2:" +:+ "99" +:+ " ok")))) req
  = fixProxyPac (L := Example.lib) "// " req +:+ "PROXY " +:+ "10.0.0.1:8087"
      +:+ fixProxyPac (L := Example.lib) " ok" req.
Proof.
  intros req.
  apply (fixProxyPac_any_separator (L := Example.lib) "x" "y" "z" "// " "99" " ok" req);
    try reflexivity; try discriminate; vm_compute; lia.
Defined.

(** ** ProxyPacRoundTrip: the cache, the store and the updater *)

Section ServingFacts.
Context {L : StdLib} {S : Type} {F : StoreFacade S}.

Lemma ProxyPacRoundTrip_miss (tGet tSet : Z) (f : Filter S) (req : Request) :
  (forall s, Cache.Get (ProxyPacCache f) (URLPath req) tGet <> Some (VString s)) ->
  ProxyPacRoundTrip tGet tSet f req =
  renderPac tSet f req
    (match splitHostPort_port (Host req) with Some p => p | None => "80" end).
Proof.
  intros Hmiss. unfold ProxyPacRoundTrip.
  destruct (Cache.Get _ _ _) as [[s|]|] eqn:Ec; try reflexivity.
  now destruct (Hmiss s).
Qed.

(** X12: after a miss has been answered, a request for the same path
    that comes before the 15 minutes are over is answered from the cache:
    the same text rewritten for its own host, with nothing read from or
    written to the store and the cache left as it is. *)
Theorem ProxyPacRoundTrip_again (tGet tSet tGet' tSet' : Z) (f f' : Filter S)
    (req req' : Request) (resp : Response) (err : option error) :
  (forall s, Cache.Get (ProxyPacCache f) (URLPath req) tGet <> Some (VString s)) ->
  ProxyPacRoundTrip tGet tSet f req = Done ((Some resp, err), f') ->
  URLPath req' = URLPath req ->
  (tGet' <= tSet + 15 * Minute)%Z ->
  exists s,
    resp = pacResponse req (fixProxyPac s req) /\
    ProxyPacRoundTrip tGet' tSet' f' req' =
      Done ((Some (pacResponse req' (fixProxyPac s req')), None), f').
Proof.
  intros Hmiss Hr Hpath Ht. rewrite (ProxyPacRoundTrip_miss _ _ _ _ Hmiss) in Hr.
  apply renderPac_done in Hr as [(Hn & _) | (b & Hr & -> & Hc)]; [discriminate |].
  injection Hr as ->. eexists. split; [reflexivity |].
  unfold ProxyPacRoundTrip, Cache.Get. rewrite Hpath, Hc.
  unfold Cache.Set_. rewrite lookup_insert_eq. reflexivity.
Qed.

(** X24: the expiry of an entry has no effect on what is served.  After
    a miss has been answered, the cache holds the text with an expiry of
    15 minutes after the [Set], and a request for the same path is
    answered with that text at whatever time it comes, also long after
    the expiry: the lookup of the handler is [Get], which finds expired
    entries too. *)
Theorem ProxyPacRoundTrip_stale (tGet tSet tGet' tSet' : Z) (f f' : Filter S)
    (req req' : Request) (resp : Response) (err : option error) :
  (forall s, Cache.Get (ProxyPacCache f) (URLPath req) tGet <> Some (VString s)) ->
  ProxyPacRoundTrip tGet tSet f req = Done ((Some resp, err), f') ->
  URLPath req' = URLPath req ->
  exists s,
    ProxyPacCache f' !! URLPath req
      = Some (mkEntry (VString s) (tSet + 15 * Minute)%Z) /\
    ProxyPacRoundTrip tGet' tSet' f' req' =
      Done ((Some (pacResponse req' (fixProxyPac s req')), None), f').
Proof.
  intros Hmiss Hr Hpath. rewrite (ProxyPacRoundTrip_miss _ _ _ _ Hmiss) in Hr.
  apply renderPac_done in Hr as [(Hn & _) | (b & Hr & -> & Hc)]; [discriminate |].
  eexists. rewrite Hc. unfold Cache.Set_. rewrite lookup_insert_eq.
  split; [reflexivity |].
  unfold ProxyPacRoundTrip, Cache.Get. rewrite Hpath, Hc.
  unfold Cache.Set_. rewrite lookup_insert_eq. reflexivity.
Qed.

(** X13: when the handler returns no response it returns the error of
    its first read of the store, and the cache is what it was: an error is
    never cached. *)
Theorem ProxyPacRoundTrip_error (tGet tSet : Z) (f f' : Filter S) (req : Request)
    (err : option error) :
  ProxyPacRoundTrip tGet tSet f req = Done ((None, err), f') ->
  exists e,
    err = Some e /\
    (Get (Go.drop 1 (URLPath req)) (Store f)).1.2 = Some e /\
    ProxyPacCache f' = ProxyPacCache f.
Proof.
  unfold ProxyPacRoundTrip.
  destruct (Cache.Get _ _ _) as [[s|]|]; [discriminate | |];
    unfold renderPac;
    (destruct (String.eqb (URLPath req) ""); [discriminate |]);
    destruct (Get _ (Store f)) as [[r e] st];
    (destruct (IsNotExist e), r as [r|]; simpl;
       try destruct (StatusCode r =? StatusNotFound)%Z; simpl; try discriminate);
    (destruct e as [e|]; [intros [= <- <-]; exists e; now repeat split |]);
    match goal with |- context [Get ?n ?st] => destruct (Get n st) as [r2 st2] end;
    destruct (readTemplate (GFWListEnabled f) r2); simpl; discriminate.
Qed.

(** X14: a template that cannot be read back is not an error of the
    handler: when the second read of the store fails, the answer is still
    200 and holds the generated part alone, and that text is cached. *)
Theorem ProxyPacRoundTrip_template_unreadable (tGet tSet : Z) (f : Filter S)
    (req : Request) (r : Response) (r2 : option Response) (e : error) (st1 st2 : S) :
  (forall s, Cache.Get (ProxyPacCache f) (URLPath req) tGet <> Some (VString s)) ->
  URLPath req <> "" ->
  Get (Go.drop 1 (URLPath req)) (Store f) = ((Some r, None), st1) ->
  StatusCode r <> StatusNotFound ->
  Get (Go.drop 1 (URLPath req)) st1 = ((r2, Some e), st2) ->
  let s := if GFWListEnabled f
           then writeSites "" (Domains (GFWListDomains_ f)) else "" in
  ProxyPacRoundTrip tGet tSet f req =
    Done ((Some (pacResponse req (fixProxyPac s req)), None),
          withCache (withStore f st2)
            (Cache.Set_ (ProxyPacCache f) (URLPath req) (VString s)
               (tSet + 15 * Minute)%Z)).
Proof.
  intros Hmiss Hpath Hg1 Hs Hg2 s.
  rewrite (ProxyPacRoundTrip_miss _ _ _ _ Hmiss). unfold renderPac.
  apply String.eqb_neq in Hpath. rewrite Hpath, Hg1.
  cbn [IsNotExist deref mbind outcome_bind StatusCode].
  apply Z.eqb_neq in Hs. rewrite Hs.
  cbn [IsNotExist deref mbind outcome_bind]. rewrite Hg2. reflexivity.
Qed.

(** X15: a request with an empty path that is not in the cache makes the
    handler panic at [req.URL.Path[1:]], before the store is touched. *)
Theorem ProxyPacRoundTrip_empty_path (tGet tSet : Z) (f : Filter S) (req : Request) :
  URLPath req = "" ->
  (forall s, Cache.Get (ProxyPacCache f) "" tGet <> Some (VString s)) ->
  ProxyPacRoundTrip tGet tSet f req = Panic sliceBounds.
Proof.
  intros Hp Hmiss. rewrite ProxyPacRoundTrip_miss by now rewrite Hp.
  unfold renderPac. now rewrite Hp.
Qed.

End ServingFacts.

Lemma ProxyPacRoundTrip_again_witness :
  let req := Example.pacRequest "10.0.0.1:8087" in
  let req' := Example.pacRequest "192.168.1.9:8087" in
  exists s err f',
    ProxyPacRoundTrip (L := Example.lib) (F := Example.memStore) 0 0
      (Example.filter Example.emptyStore ["a.com"]) req
      = Done ((Some (pacResponse req (fixProxyPac (L := Example.lib) s req)), err), f') /\
    ProxyPacRoundTrip (L := Example.lib) (F := Example.memStore)
      (10 * Minute) (10 * Minute) f' req'
      = Done ((Some (pacResponse req' (fixProxyPac (L := Example.lib) s req')), None), f').
Proof.
  intros req req'.
  destruct (ProxyPacRoundTrip (L := Example.lib) (F := Example.memStore) 0 0
              (Example.filter Example.emptyStore ["a.com"]) req)
    as [[[[resp|] err] f']| |] eqn:E;
    try (vm_compute in E; discriminate E).
  assert (Hmiss : forall s,
             Cache.Get (ProxyPacCache (Example.filter Example.emptyStore ["a.com"]))
               (URLPath req) 0 <> Some (VString s)) by (intros s; discriminate).
  assert (Ht : (10 * Minute <= 0 + 15 * Minute)%Z) by (vm_compute; discriminate).
  destruct (ProxyPacRoundTrip_again 0 0 (10 * Minute) (10 * Minute) _ _ req req' _ _
              Hmiss E eq_refl Ht) as (s & -> & H2).
  exists s, err, f'. split; [reflexivity | exact H2].
Defined.

Lemma ProxyPacRoundTrip_stale_witness :
  let req := Example.pacRequest "10.0.0.1:8087" in
  let req' := Example.pacRequest "192.168.1.9:8087" in
  exists s resp err f',
    ProxyPacRoundTrip (L := Example.lib) (F := Example.memStore) 0 0
      (Example.filter Example.emptyStore ["a.com"]) req
      = Done ((Some resp, err), f') /\
    ProxyPacCache f' !! URLPath req = Some (mkEntry (VString s) (15 * Minute)%Z) /\
    ProxyPacRoundTrip (L := Example.lib) (F := Example.memStore)
      (600 * Minute) (600 * Minute) f' req'
      = Done ((Some (pacResponse req' (fixProxyPac (L := Example.lib) s req')), None), f').
Proof.
  intros req req'.
  destruct (ProxyPacRoundTrip (L := Example.lib) (F := Example.memStore) 0 0
              (Example.filter Example.emptyStore ["a.com"]) req)
    as [[[[resp|] err] f']| |] eqn:E;
    try (vm_compute in E; discriminate E).
  assert (Hmiss : forall s,
             Cache.Get (ProxyPacCache (Example.filter Example.emptyStore ["a.com"]))
               (URLPath req) 0 <> Some (VString s)) by (intros s; discriminate).
  destruct (ProxyPacRoundTrip_stale 0 0 (600 * Minute) (600 * Minute) _ _ req req' _ _
              Hmiss E eq_refl) as (s & H1 & H2).
  exists s, resp, err, f'. split; [reflexivity |]. split; [exact H1 | exact H2].
Defined.

Lemma ProxyPacRoundTrip_error_witness :
  exists e f',
    ProxyPacRoundTrip (L := Example.lib) (F := Example.memStore) 0 0
      (Example.filter
         (Example.mkMem ∅ [(Some Example.notFound, Some (ErrOther "read error"))]) [])
      (Example.pacRequest "10.0.0.1:8087")
      = Done ((None, Some e), f') /\
    ProxyPacCache f' = ∅.
Proof.
  destruct (ProxyPacRoundTrip (L := Example.lib) (F := Example.memStore) 0 0
              (Example.filter
                 (Example.mkMem ∅ [(Some Example.notFound, Some (ErrOther "read error"))]) [])
              (Example.pacRequest "10.0.0.1:8087"))
    as [[[[resp|] err] f']| |] eqn:E;
    try (vm_compute in E; discriminate E).
  destruct (ProxyPacRoundTrip_error _ _ _ _ _ _ E) as (e & -> & _ & Hc).
  exists e, f'. split; [reflexivity | exact Hc].
Defined.

Lemma ProxyPacRoundTrip_template_unreadable_witness :
  let req := Example.pacRequest "10.0.0.1:8087" in
  let st := Example.mkMem ∅ [(Some (Example.found "x" Example.epoch true), None);
                             (None, Some (ErrOther "read error"))] in
  exists f',
    ProxyPacRoundTrip (L := Example.lib) (F := Example.memStore) 0 0
      (Example.filter st ["a.com"]) req
    = Done ((Some (pacResponse req
                     (fixProxyPac (L := Example.lib) (writeSites "" ["a.com"]) req)),
             None), f').
Proof.
  intros req st. eexists.
  apply (ProxyPacRoundTrip_template_unreadable (L := Example.lib) (F := Example.memStore)
           0 0 (Example.filter st ["a.com"]) req
           (Example.found "x" Example.epoch true) None (ErrOther "read error")
           (Example.mkMem ∅ [(None, Some (ErrOther "read error"))])
           (Example.mkMem ∅ [])).
  - intros s. discriminate.
  - discriminate.
  - reflexivity.
  - discriminate.
  - reflexivity.
Defined.

Lemma ProxyPacRoundTrip_empty_path_witness :
  ProxyPacRoundTrip (L := Example.lib) (F := Example.memStore) 0 0
    (Example.filter Example.emptyStore []) (mkRequest "10.0.0.1:8087" "")
  = Panic sliceBounds.
Proof.
  apply ProxyPacRoundTrip_empty_path; [reflexivity | intros s; discriminate].
Defined.

(** ** The updater: what a round keeps and what it publishes *)

Section RoundFacts.
Context {L : StdLib} {S : Type} {F : StoreFacade S}.

Ltac run :=
  cbv beta iota delta
    [mbind mret Run_bind Run_ret emit callStore readConfig setDomains clearCache
     Warningf Errorf Fatalf follow];
  cbn [Store GFWList ProxyPacCache GFWListDomains_ GFWListEnabled
       withStore withCache withDomains].

Lemma merge_sort_domains (sites : list string) :
  NoDup sites ->
  Sorted String.le (merge_sort String.le sites) /\
  NoDup (merge_sort String.le sites) /\
  forall site, In site (merge_sort String.le sites) <-> In site sites.
Proof.
  intros Hn. pose proof (merge_sort_Permutation String.le sites) as Hp.
  split; [apply Sorted_merge_sort, _ |]. split.
  - now rewrite Hp.
  - intros site. rewrite <- !list_elem_of_In. now rewrite Hp.
Qed.

(** What a parse that succeeds has read and returns. *)
Lemma legallyParseGFWList_ok (name : string) (f f' : Filter S)
    (done done' : list event) (domains : list string) :
  legallyParseGFWList name (f, done) = Done ((domains, None), (f', done')) ->
  exists resp body st,
    Get name (Store f) = ((Some resp, None), st) /\
    Body resp = Some body /\
    (parseAutoProxy body).2 = None /\
    domains = merge_sort String.le (parseAutoProxy body).1 /\
    f' = withStore f st.
Proof.
  unfold legallyParseGFWList. run.
  destruct (Get name (Store f)) as [[resp [e|]] st]; run; [discriminate |].
  destruct resp as [resp|]; [| discriminate].
  destruct (Body resp) as [body|] eqn:Eb; [| discriminate].
  destruct (parseAutoProxy body) as [sites [e|]] eqn:Ep; run; [discriminate |].
  intros [= <- <- <-]. exists resp, body, st. rewrite Ep. now repeat split.
Qed.

(** X16: the list that [legallyParseGFWList] returns is in ascending
    order, holds no rule twice, and holds the rules parsed from the body
    that the store returned for the file. *)
Theorem legallyParseGFWList_sorted (name : string) (f f' : Filter S)
    (done done' : list event) (domains : list string) :
  legallyParseGFWList name (f, done) = Done ((domains, None), (f', done')) ->
  Sorted String.le domains /\ NoDup domains /\
  exists resp body,
    (Get name (Store f)).1 = (Some resp, None) /\
    Body resp = Some body /\
    forall site, In site domains <-> In site (parseAutoProxy body).1.
Proof.
  intros Hp. apply legallyParseGFWList_ok in Hp
    as (resp & body & st & Hg & Hb & _ & -> & _).
  destruct (merge_sort_domains _ (parseAutoProxy_NoDup body)) as (Hs & Hn & Hi).
  split; [exact Hs |]. split; [exact Hn |].
  exists resp, body. rewrite Hg. split; [reflexivity |]. split; [exact Hb | exact Hi].
Qed.

(** What every round that returns leaves behind. *)
Lemma pacUpdaterRound_inv (t : Tick) (f f' : Filter S) (done done' : list event)
    (e : roundEnd) :
  pacUpdaterRound t (f, done) = Done (e, (f', done')) ->
  GFWList f' = GFWList f /\ GFWListEnabled f' = GFWListEnabled f /\
  match e with
  | Updated =>
      ProxyPacCache f' = ∅ /\
      Sorted String.le (Domains (GFWListDomains_ f')) /\
      NoDup (Domains (GFWListDomains_ f'))
  | _ =>
      GFWListDomains_ f' = GFWListDomains_ f /\
      ProxyPacCache f' = ProxyPacCache f
  end.
Proof.
  unfold pacUpdaterRound. run.
  destruct (Head _ (Store f)) as [[hr [e0|]] st0]; run;
    [intros [= <- <- <-]; now repeat split |].
  destruct hr as [hr|]; [| discriminate].
  destruct (String.eqb _ ""); run; [intros [= <- <- <-]; now repeat split |].
  destruct (timeParse _) as [modTime|]; run; [| intros [= <- <- <-]; now repeat split].
  destruct (_ <? _)%Z; run; [intros [= <- <- <-]; now repeat split |].
  unfold refresh. run.
  destruct (newRequestErr t); run; [intros [= <- <- <-]; now repeat split |].
  destruct (roundTrip t) as [[resp|] [e0|]]; run;
    try discriminate; try (intros [= <- <- <-]; now repeat split).
  destruct (Body resp) as [body|]; [| discriminate].
  destruct (ReadAll _) as [data [e0|]]; run; [intros [= <- <- <-]; now repeat split |].
  destruct (Delete _ st0) as [[dr [e0|]] st1]; run;
    [intros [= <- <- <-]; now repeat split |].
  destruct (Put _ _ _ st1) as [[pr [e0|]] st2]; run;
    [intros [= <- <- <-]; now repeat split |].
  destruct (legallyParseGFWList _ _) as [[[domains [e0|]] [f2 done2]]| |] eqn:Ep;
    run; try discriminate.
  apply legallyParseGFWList_ok in Ep as (r & stored & st & _ & _ & _ & -> & ->).
  intros [= <- <- <-]. run.
  destruct (merge_sort_domains _ (parseAutoProxy_NoDup stored)) as (Hs & Hn & _).
  now repeat split.
Qed.

(** X17: a round that does not reach its last line, whether the list was
    up to date or a step failed with a warning, leaves the published
    domains and the cache as they were. *)
Theorem pacUpdaterRound_keeps (t : Tick) (f f' : Filter S) (done done' : list event)
    (e : roundEnd) :
  pacUpdaterRound t (f, done) = Done (e, (f', done')) ->
  e <> Updated ->
  GFWListDomains_ f' = GFWListDomains_ f /\ ProxyPacCache f' = ProxyPacCache f.
Proof.
  intros Hr He. apply pacUpdaterRound_inv in Hr as (_ & _ & Hr).
  destruct e; [exact Hr | exact Hr | congruence].
Qed.

(** X18: a round that refreshes the list publishes domains in ascending
    order and without repetition. *)
Theorem pacUpdaterRound_publishes_sorted (t : Tick) (f f' : Filter S)
    (done done' : list event) :
  pacUpdaterRound t (f, done) = Done (Updated, (f', done')) ->
  Sorted String.le (Domains (GFWListDomains_ f')) /\
  NoDup (Domains (GFWListDomains_ f')).
Proof.
  intros Hr. apply pacUpdaterRound_inv in Hr as (_ & _ & _ & Hs & Hn). now split.
Qed.

(** X19: however many rounds the loop runs, it never changes the
    configuration of the list or whether the list is enabled, and the
    domains it leaves are those it started with or a sorted list without
    repetition. *)
Theorem pacUpdater_keeps (ticks : list Tick) (f f' : Filter S)
    (done done' : list event) :
  pacUpdater ticks (f, done) = Done (tt, (f', done')) ->
  GFWList f' = GFWList f /\ GFWListEnabled f' = GFWListEnabled f /\
  (GFWListDomains_ f' = GFWListDomains_ f \/
   (Sorted String.le (Domains (GFWListDomains_ f')) /\
    NoDup (Domains (GFWListDomains_ f')))).
Proof.
  revert f done. induction ticks as [|t ticks IH]; intros f done; cbn [pacUpdater].
  - run. intros [= <- <-]. repeat split. now left.
  - run. destruct (pacUpdaterRound t (f, done)) as [[e [f1 done1]]| |] eqn:Er;
      try discriminate.
    intros Hl. apply IH in Hl as (Hc & He & Hd).
    apply pacUpdaterRound_inv in Er as (Hc1 & He1 & Hr).
    split; [congruence |]. split; [congruence |].
    destruct Hd as [Hd | Hd]; [| now right].
    rewrite Hd. destruct e; try (left; exact (proj1 Hr)).
    right. exact (proj2 Hr).
Qed.

(** X20: the response of the download is used for its body alone: two
    answers with the same body, whatever their status codes and headers,
    make the round do the same. *)
Theorem pacUpdaterRound_ignores_status (t t' : Tick) (resp resp' : Response)
    (σ : Filter S * list event) :
  tickNow t' = tickNow t -> newRequestErr t' = newRequestErr t ->
  roundTrip t = (Some resp, None) -> roundTrip t' = (Some resp', None) ->
  Body resp' = Body resp ->
  pacUpdaterRound t' σ = pacUpdaterRound t σ.
Proof.
  intros Hn He Hr Hr' Hb. destruct σ as [f done].
  assert (Hx : forall σ', refresh t' σ' = refresh t σ').
  { intros [f0 done0]. unfold refresh. run. rewrite He, Hr, Hr'. run.
    now rewrite Hb. }
  unfold pacUpdaterRound. run. rewrite Hn.
  destruct (Head _ (Store f)) as [[hr [e0|]] st0]; run; [reflexivity |].
  destruct hr as [hr|]; [| reflexivity].
  destruct (String.eqb _ ""); run; [reflexivity |].
  destruct (timeParse _) as [modTime|]; run; [| reflexivity].
  destruct (_ <? _)%Z; run; [reflexivity | apply Hx].
Qed.

End RoundFacts.

Section PublishFacts.
Context {L : StdLib} {S : Type} {F : StoreFacade S}.


End PublishFacts.

Lemma legallyParseGFWList_sorted_witness :
  exists domains f' done',
    legallyParseGFWList (L := Example.lib) (F := Example.memStore) "gfwlist.txt"
      (Example.filter
         (Example.mkMem {[ "gfwlist.txt" := (Example.newList, Example.epoch) ]} []) [], [])
      = Done ((domains, None), (f', done')) /\
    Sorted String.le domains /\ NoDup domains.
Proof.
  destruct (legallyParseGFWList (L := Example.lib) (F := Example.memStore) "gfwlist.txt"
              (Example.filter
                 (Example.mkMem {[ "gfwlist.txt" := (Example.newList, Example.epoch) ]} [])
                 [], []))
    as [[[domains [e|]] [f' done']]| |] eqn:E; try (vm_compute in E; discriminate E).
  exists domains, f', done'. split; [reflexivity |].
  destruct (legallyParseGFWList_sorted _ _ _ _ _ _ E) as (Hs & Hn & _). now split.
Defined.

Lemma pacUpdaterRound_keeps_witness :
  exists f' done',
    pacUpdaterRound (L := Example.lib) (F := Example.memStore)
      (mkTick (2 * Example.hour) (Some (ErrOther "bad URL")) (None, None))
      (Example.filter Example.oldStore ["old.com"], [])
    = Done (GaveUp, (f', done')) /\
    GFWListDomains_ f' = mkDomains ["old.com"] /\ ProxyPacCache f' = ∅.
Proof.
  destruct (pacUpdaterRound (L := Example.lib) (F := Example.memStore)
              (mkTick (2 * Example.hour) (Some (ErrOther "bad URL")) (None, None))
              (Example.filter Example.oldStore ["old.com"], []))
    as [[e [f' done']]| |] eqn:E; try (vm_compute in E; discriminate E).
  destruct e; try (vm_compute in E; discriminate E).
  exists f', done'. split; [reflexivity |].
  exact (pacUpdaterRound_keeps _ _ _ _ _ _ E ltac:(discriminate)).
Defined.

Lemma pacUpdaterRound_publishes_sorted_witness :
  exists f' done',
    pacUpdaterRound (L := Example.lib) (F := Example.memStore)
      (mkTick (2 * Example.hour) None (Example.download Example.newList))
      (Example.filter Example.oldStore ["old.com"], [])
    = Done (Updated, (f', done')) /\
    Sorted String.le (Domains (GFWListDomains_ f')) /\
    NoDup (Domains (GFWListDomains_ f')).
Proof.
  destruct (pacUpdaterRound (L := Example.lib) (F := Example.memStore)
              (mkTick (2 * Example.hour) None (Example.download Example.newList))
              (Example.filter Example.oldStore ["old.com"], []))
    as [[e [f' done']]| |] eqn:E; try (vm_compute in E; discriminate E).
  destruct e; try (vm_compute in E; discriminate E).
  exists f', done'. split; [reflexivity |].
  exact (pacUpdaterRound_publishes_sorted _ _ _ _ _ E).
Defined.

Lemma pacUpdater_keeps_witness :
  exists f' done',
    pacUpdater (L := Example.lib) (F := Example.memStore)
      [mkTick (Example.hour / 2) None (Example.download Example.newList);
       mkTick (2 * Example.hour) None (Example.download Example.newList)]
      (Example.filter Example.oldStore ["old.com"], [])
    = Done (tt, (f', done')) /\
    GFWList f' = Example.config /\ GFWListEnabled f' = true.
Proof.
  destruct (pacUpdater (L := Example.lib) (F := Example.memStore)
              [mkTick (Example.hour / 2) None (Example.download Example.newList);
               mkTick (2 * Example.hour) None (Example.download Example.newList)]
              (Example.filter Example.oldStore ["old.com"], []))
    as [[[] [f' done']]| |] eqn:E; try (vm_compute in E; discriminate E).
  exists f', done'. split; [reflexivity |].
  destruct (pacUpdater_keeps _ _ _ _ _ E) as (Hc & He & _). now split.
Defined.

Lemma pacUpdaterRound_ignores_status_witness :
  let σ := (Example.filter Example.oldStore ["old.com"], []) in
  pacUpdaterRound (L := Example.lib) (F := Example.memStore)
    (mkTick (2 * Example.hour) None
       (Some (mkResponse StatusNotFound [] None false 0
                (Some (NewReader Example.newList))), None)) σ
  = pacUpdaterRound (L := Example.lib) (F := Example.memStore)
      (mkTick (2 * Example.hour) None (Example.download Example.newList)) σ.
Proof.
  intros σ.
  apply (pacUpdaterRound_ignores_status (L := Example.lib) (F := Example.memStore)
           (mkTick (2 * Example.hour) None (Example.download Example.newList)) _
           (Example.found Example.newList Example.epoch true)
           (mkResponse StatusNotFound [] None false 0 (Some (NewReader Example.newList))));
    reflexivity.
Defined.


(** ** GFWListInit *)

Section InitFacts.
Context {L : StdLib} {H : Helpers} {S : Type} {F : StoreFacade S}.

Ltac run :=
  cbv beta iota delta
    [mbind mret Run_bind Run_ret emit callStore readConfig setDomains clearCache
     Warningf Errorf Fatalf follow enabled newDomains];
  cbn [Store GFWList ProxyPacCache GFWListDomains_ GFWListEnabled
       withStore withCache withDomains].

(** X22: on a filter whose list is disabled [GFWListInit] does nothing.
    On an enabled one it returns only if the DNS server, when remote DNS
    is on, and the proxy URL, when the proxy is on, were accepted, and the
    stored list could be read and parsed; it then leaves sorted domains
    without repetition and the cache untouched, and has found the
    downstream filter, named direct when no rule is configured. *)
Theorem GFWListInit_returns (config : InitConfig) (f f' : Filter S)
    (done done' : list event) (w : option Wiring) :
  GFWListInit config (f, done) = Done (w, (f', done')) ->
  if GFWListEnabled f then
    (EnableRemoteDNS config = true -> ParseIPPort_fails (DNSServer config) = false) /\
    (ProxyEnabled config = true ->
       urlParseHost (ProxyURL config) <> None /\
       FromURL_fails (ProxyURL config) = false) /\
    Sorted String.le (Domains (GFWListDomains_ f')) /\
    NoDup (Domains (GFWListDomains_ f')) /\
    ProxyPacCache f' = ProxyPacCache f /\
    exists wiring,
      w = Some wiring /\
      (FilterEnabled config = true ->
         let name := if String.eqb (FilterRule config) "" then "direct"
                     else FilterRule config in
         wFilterRule wiring = Some name /\ GetFilter name = Some true)
  else w = None /\ f' = f /\ done' = done.
Proof.
  unfold GFWListInit. run. destruct (GFWListEnabled f) eqn:Eon.
  2: { intros [= <- <- <-]. now repeat split. }
  destruct (EnableRemoteDNS config && ParseIPPort_fails (DNSServer config)) eqn:Ed;
    run; [discriminate |].
  assert (Hdns : EnableRemoteDNS config = true ->
                 ParseIPPort_fails (DNSServer config) = false).
  { intros E. now rewrite E in Ed. }
  assert (Hproxy : forall (k : bool -> Run S (option Wiring)) r,
            ((if ProxyEnabled config then
                match urlParseHost (ProxyURL config) with
                | None => Fatalf "url.Parse(%#v) error: %s"
                | Some _ =>
                    if FromURL_fails (ProxyURL config)
                    then Fatalf "proxy.FromURL(%#v) error: %s"
                    else mret true
                end
              else mret false) ≫= k) (f, done) = Done r ->
            (ProxyEnabled config = true ->
               urlParseHost (ProxyURL config) <> None /\
               FromURL_fails (ProxyURL config) = false) /\
            exists b, k b (f, done) = Done r).
  { intros k r. destruct (ProxyEnabled config); run.
    - destruct (urlParseHost (ProxyURL config)); run; [| discriminate].
      destruct (FromURL_fails (ProxyURL config)); run; [discriminate |].
      intros Hk. split; [intros _; split; [discriminate | reflexivity] | eauto].
    - intros Hk. split; [discriminate | eauto]. }
  intros Hr. apply Hproxy in Hr as (Hp & via & Hr). clear Hproxy. revert Hr. run.
  destruct (legallyParseGFWList _ _) as [[[domains [e|]] [f2 done2]]| |] eqn:Ep;
    run; try discriminate.
  apply legallyParseGFWList_ok in Ep as (r & stored & st & _ & _ & _ & -> & ->).
  destruct (merge_sort_domains _ (parseAutoProxy_NoDup stored)) as (Hs & Hn & _).
  destruct (FilterEnabled config); run.
  - destruct (GetFilter _) as [[|]|] eqn:Eg; run; try discriminate.
    intros [= <- <- <-]. run.
    split; [exact Hdns |]. split; [exact Hp |]. split; [exact Hs |].
    split; [exact Hn |]. split; [reflexivity |].
    eexists. split; [reflexivity |].
    intros _. split; reflexivity.
  - intros [= <- <- <-]. run.
    split; [exact Hdns |]. split; [exact Hp |]. split; [exact Hs |].
    split; [exact Hn |]. split; [reflexivity |].
    eexists. split; [reflexivity | discriminate].
Qed.

End InitFacts.

Lemma GFWListInit_returns_witness :
  exists wiring f' done',
    GFWListInit (L := Example.lib) (H := InitExample.helpers) (F := Example.memStore)
      InitExample.config (Example.filter Example.oldStore [], [])
    = Done (Some wiring, (f', done')) /\
    Sorted String.le (Domains (GFWListDomains_ f')) /\
    wFilterRule wiring = Some "direct".
Proof.
  destruct (GFWListInit (L := Example.lib) (H := InitExample.helpers)
              (F := Example.memStore)
              InitExample.config (Example.filter Example.oldStore [], []))
    as [[w [f' done']]| |] eqn:E; try (vm_compute in E; discriminate E).
  pose proof (GFWListInit_returns _ _ _ _ _ _ E) as Hr. cbn [GFWListEnabled Example.filter] in Hr.
  destruct Hr as (_ & _ & Hs & _ & _ & wiring & -> & Hf).
  exists wiring, f', done'. split; [reflexivity |]. split; [exact Hs |].
  exact (proj1 (Hf eq_refl)).
Defined.

